(** * surbtc-rest-client: request signing, auth guards, order pager and poller

    A shallow embedding of [src/index.js] and of its later revision
    [src/unnamed/part_002] (the same client with bank-account, withdrawal and
    deposit operations added).

    Conventions of the embedding:
    - a JavaScript string is a [string] whose characters are the bytes of its
      UTF-8 encoding (so [new Buffer(s)] and [hmac.update(s)] see exactly the
      characters of [s]);
    - a JavaScript number that counts or identifies (a nonce, a page, an order
      id) is an integer of [Z], standing for the double of that value;
      integers that are no doubles, or that JavaScript prints with an exponent
      (from 10^21 on), are outside the embedding;
    - an amount is a [number]: such an integer, or any other double, given by
      the text JavaScript prints for it; arithmetic on amounts ([x * 100],
      bitcoin-math's [toSatoshi]) is a function of the environment, not
      computed on [Z];
    - [undefined] is [None] of an [option], and so is the [NaN] that
      [_.toNumber] makes of a missing page number;
    - a JavaScript object used as a dictionary (the header set) is a [gmap];
    - node's [crypto], [Buffer] and [JSON] are embedded as the executable
      functions [hmac_sha384_hex], [base64] and [JSON_stringify]; node's
      [url.parse(u).path] is a function of the environment. *)

From Stdlib Require Import ZArith String Ascii List Lia DecimalString.
From stdpp Require Import gmap strings.
Import ListNotations.

#[local] Set Warnings "-register-all".

Local Open Scope string_scope.
Local Open Scope list_scope.
Local Open Scope Z_scope.

(** ** Bytes and strings *)

Definition bytes := list Z.

Definition bytes_of_string (s : string) : bytes :=
  map (fun c => Z.of_N (N_of_ascii c)) (list_ascii_of_string s).

Definition hex_digit (n : Z) : ascii :=
  if n <? 10 then ascii_of_N (Z.to_N (48 + n)) else ascii_of_N (Z.to_N (87 + n)).

(** [digest('hex')]: two lowercase hexadecimal digits per byte. *)
Fixpoint hex_of_bytes (bs : bytes) : string :=
  match bs with
  | [] => EmptyString
  | b :: rest => String (hex_digit (b / 16)) (String (hex_digit (b mod 16)) (hex_of_bytes rest))
  end.

(** ** SHA-384 (FIPS 180-4) on 64-bit words written as [Z] with the wrap-around explicit *)

Module SHA384.

Definition mask64 : Z := 0xffffffffffffffff.
Definition w64 (x : Z) : Z := Z.land x mask64.
Definition add64 (x y : Z) : Z := w64 (x + y).
Definition not64 (x : Z) : Z := Z.lxor x mask64.
Definition rotr (n x : Z) : Z := Z.lor (Z.shiftr x n) (w64 (Z.shiftl x (64 - n))).

Definition Ch (x y z : Z) : Z := Z.lxor (Z.land x y) (Z.land (not64 x) z).
Definition Maj (x y z : Z) : Z := Z.lxor (Z.lxor (Z.land x y) (Z.land x z)) (Z.land y z).
Definition Sigma0 (x : Z) : Z := Z.lxor (Z.lxor (rotr 28 x) (rotr 34 x)) (rotr 39 x).
Definition Sigma1 (x : Z) : Z := Z.lxor (Z.lxor (rotr 14 x) (rotr 18 x)) (rotr 41 x).
Definition sigma0 (x : Z) : Z := Z.lxor (Z.lxor (rotr 1 x) (rotr 8 x)) (Z.shiftr x 7).
Definition sigma1 (x : Z) : Z := Z.lxor (Z.lxor (rotr 19 x) (rotr 61 x)) (Z.shiftr x 6).

Definition K : list Z :=
  [
   0x428a2f98d728ae22; 0x7137449123ef65cd; 0xb5c0fbcfec4d3b2f; 0xe9b5dba58189dbbc;
   0x3956c25bf348b538; 0x59f111f1b605d019; 0x923f82a4af194f9b; 0xab1c5ed5da6d8118;
   0xd807aa98a3030242; 0x12835b0145706fbe; 0x243185be4ee4b28c; 0x550c7dc3d5ffb4e2;
   0x72be5d74f27b896f; 0x80deb1fe3b1696b1; 0x9bdc06a725c71235; 0xc19bf174cf692694;
   0xe49b69c19ef14ad2; 0xefbe4786384f25e3; 0x0fc19dc68b8cd5b5; 0x240ca1cc77ac9c65;
   0x2de92c6f592b0275; 0x4a7484aa6ea6e483; 0x5cb0a9dcbd41fbd4; 0x76f988da831153b5;
   0x983e5152ee66dfab; 0xa831c66d2db43210; 0xb00327c898fb213f; 0xbf597fc7beef0ee4;
   0xc6e00bf33da88fc2; 0xd5a79147930aa725; 0x06ca6351e003826f; 0x142929670a0e6e70;
   0x27b70a8546d22ffc; 0x2e1b21385c26c926; 0x4d2c6dfc5ac42aed; 0x53380d139d95b3df;
   0x650a73548baf63de; 0x766a0abb3c77b2a8; 0x81c2c92e47edaee6; 0x92722c851482353b;
   0xa2bfe8a14cf10364; 0xa81a664bbc423001; 0xc24b8b70d0f89791; 0xc76c51a30654be30;
   0xd192e819d6ef5218; 0xd69906245565a910; 0xf40e35855771202a; 0x106aa07032bbd1b8;
   0x19a4c116b8d2d0c8; 0x1e376c085141ab53; 0x2748774cdf8eeb99; 0x34b0bcb5e19b48a8;
   0x391c0cb3c5c95a63; 0x4ed8aa4ae3418acb; 0x5b9cca4f7763e373; 0x682e6ff3d6b2b8a3;
   0x748f82ee5defb2fc; 0x78a5636f43172f60; 0x84c87814a1f0ab72; 0x8cc702081a6439ec;
   0x90befffa23631e28; 0xa4506cebde82bde9; 0xbef9a3f7b2c67915; 0xc67178f2e372532b;
   0xca273eceea26619c; 0xd186b8c721c0c207; 0xeada7dd6cde0eb1e; 0xf57d4f7fee6ed178;
   0x06f067aa72176fba; 0x0a637dc5a2c898a6; 0x113f9804bef90dae; 0x1b710b35131c471b;
   0x28db77f523047d84; 0x32caab7b40c72493; 0x3c9ebe0a15c9bebc; 0x431d67c49c100d4c;
   0x4cc5d4becb3e42b6; 0x597f299cfc657e2a; 0x5fcb6fab3ad6faec; 0x6c44198c4a475817
  ].

Definition H0 : list Z :=
  [
   0xcbbb9d5dc1059ed8; 0x629a292a367cd507; 0x9159015a3070dd17; 0x152fecd8f70e5939;
   0x67332667ffc00b31; 0x8eb44a8768581511; 0xdb0c2e0d64f98fa7; 0x47b5481dbefa4fa4
  ].

(** Big-endian encoding of [x] on [n] bytes. *)
Fixpoint be_bytes (n : nat) (x : Z) : bytes :=
  match n with
  | O => []
  | S m => Z.land (Z.shiftr x (8 * Z.of_nat m)) 255 :: be_bytes m x
  end.

Definition be_word (bs : bytes) : Z :=
  fold_left (fun acc b => Z.lor (Z.shiftl acc 8) b) bs 0.

(** Padding: the bit 1, zeros up to 112 modulo 128 bytes, the bit length on 128 bits. *)
Definition pad (msg : bytes) : bytes :=
  let len := Z.of_nat (length msg) in
  let zeros := Z.to_nat ((111 - len) mod 128) in
  msg ++ [128] ++ repeat 0 zeros ++ be_bytes 16 (8 * len).

Fixpoint chunks (fuel : nat) (n : nat) (l : bytes) : list bytes :=
  match fuel with
  | O => []
  | S fuel' =>
      match l with
      | [] => []
      | _ => firstn n l :: chunks fuel' n (skipn n l)
      end
  end.

Definition words_of_block (block : bytes) : list Z :=
  map be_word (chunks 16 8 block).

(** The message schedule: [window] holds the last sixteen words, oldest first. *)
Fixpoint schedule (n : nat) (window : list Z) : list Z :=
  match n with
  | O => []
  | S m =>
      let w := add64 (add64 (sigma1 (nth 14 window 0)) (nth 9 window 0))
                     (add64 (sigma0 (nth 1 window 0)) (nth 0 window 0)) in
      w :: schedule m (tl window ++ [w])
  end.

Record regs := Regs { ra : Z; rb : Z; rc : Z; rd : Z; re : Z; rf : Z; rg : Z; rh : Z }.

Definition round (r : regs) (kw : Z * Z) : regs :=
  let t1 := add64 (add64 (add64 (rh r) (Sigma1 (re r))) (Ch (re r) (rf r) (rg r)))
                  (add64 (fst kw) (snd kw)) in
  let t2 := add64 (Sigma0 (ra r)) (Maj (ra r) (rb r) (rc r)) in
  Regs (add64 t1 t2) (ra r) (rb r) (rc r) (add64 (rd r) t1) (re r) (rf r) (rg r).

Definition regs_of_list (h : list Z) : regs :=
  Regs (nth 0 h 0) (nth 1 h 0) (nth 2 h 0) (nth 3 h 0)
       (nth 4 h 0) (nth 5 h 0) (nth 6 h 0) (nth 7 h 0).

Definition list_of_regs (r : regs) : list Z :=
  [ra r; rb r; rc r; rd r; re r; rf r; rg r; rh r].

Definition compress (h : list Z) (block : bytes) : list Z :=
  let w16 := words_of_block block in
  let w := w16 ++ schedule 64 w16 in
  let r := fold_left round (combine K w) (regs_of_list h) in
  map (fun p => add64 (fst p) (snd p)) (combine h (list_of_regs r)).

(** The digest: the first six of the eight state words, 48 bytes. *)
Definition digest (msg : bytes) : bytes :=
  let p := pad msg in
  let h := fold_left compress (chunks (length p) 128 p) H0 in
  flat_map (be_bytes 8) (firstn 6 h).

End SHA384.

(** ** HMAC (RFC 2104) over SHA-384, block size 128 bytes *)

Definition hmac_sha384 (key msg : bytes) : bytes :=
  let k0 := if (128 <? Z.of_nat (length key)) then SHA384.digest key else key in
  let k := k0 ++ repeat 0 (128 - length k0)%nat in
  let ipad := map (fun b => Z.lxor b 54) k in
  let opad := map (fun b => Z.lxor b 92) k in
  SHA384.digest (opad ++ SHA384.digest (ipad ++ msg)).

(** [crypto.createHmac('sha384', secret).update(message).digest('hex')] *)
Definition hmac_sha384_hex (secret message : string) : string :=
  hex_of_bytes (hmac_sha384 (bytes_of_string secret) (bytes_of_string message)).


(** ** Base64 ([Buffer.toString('base64')]): standard alphabet, [=] padding *)

Definition base64_alphabet : list ascii :=
  list_ascii_of_string "ABCDEFGHIJKLMNOPQRSTUVWXYZabcdefghijklmnopqrstuvwxyz0123456789+/".

Definition base64_char (n : Z) : ascii := nth (Z.to_nat n) base64_alphabet "="%char.

Fixpoint base64_bytes (bs : bytes) : list ascii :=
  match bs with
  | [] => []
  | [a] =>
      [base64_char (a / 4); base64_char ((a mod 4) * 16); "="%char; "="%char]
  | [a; b] =>
      [base64_char (a / 4); base64_char ((a mod 4) * 16 + b / 16);
       base64_char ((b mod 16) * 4); "="%char]
  | a :: b :: c :: rest =>
      base64_char (a / 4) :: base64_char ((a mod 4) * 16 + b / 16)
      :: base64_char ((b mod 16) * 4 + c / 64) :: base64_char (c mod 64)
      :: base64_bytes rest
  end.

(** [new Buffer(s).toString('base64')] *)
Definition base64 (s : string) : string :=
  string_of_list_ascii (base64_bytes (bytes_of_string s)).

(** ** JSON values and [JSON.stringify] *)

Inductive json : Type :=
| JNull
| JBool (b : bool)
| JNum (n : Z)               (* an integer printed in plain digits *)
| JDouble (text : string)    (* any other number, by its JSON text *)
| JStr (s : string)
| JArr (items : list json)
| JObj (fields : list (string * json)).

(** A JavaScript number as a caller passes it: an integer, or any other
    double, given by the text [JSON.stringify] prints for it. *)
Inductive number : Type :=
| NInt (n : Z)
| NDouble (text : string).

Definition json_of_number (x : number) : json :=
  match x with
  | NInt n => JNum n
  | NDouble text => JDouble text
  end.

(** Number to string, as in ['?page=' + page] and in [JSON.stringify]. *)
Definition string_of_Z (n : Z) : string :=
  DecimalString.NilZero.string_of_int (Z.to_int n).

(** The double-quote character, as a one-character string. *)
Definition dquote : string := String "034"%char EmptyString.

Definition json_escape_char (c : ascii) : string :=
  let n := Z.of_N (N_of_ascii c) in
  if n =? 34 then "\" +:+ dquote
  else if n =? 92 then "\\"
  else if n =? 8 then "\b"
  else if n =? 12 then "\f"
  else if n =? 10 then "\n"
  else if n =? 13 then "\r"
  else if n =? 9 then "\t"
  else if n <? 32 then "\u00" +:+ String (hex_digit (n / 16)) (String (hex_digit (n mod 16)) EmptyString)
  else String c EmptyString.

Fixpoint json_escape (s : string) : string :=
  match s with
  | EmptyString => EmptyString
  | String c rest => json_escape_char c +:+ json_escape rest
  end.

Definition json_quote (s : string) : string :=
  dquote +:+ json_escape s +:+ dquote.

Fixpoint join (sep : string) (l : list string) : string :=
  match l with
  | [] => EmptyString
  | [x] => x
  | x :: rest => x +:+ sep +:+ join sep rest
  end.

Fixpoint JSON_stringify (j : json) : string :=
  match j with
  | JNull => "null"
  | JBool true => "true"
  | JBool false => "false"
  | JNum n => string_of_Z n
  | JDouble text => text
  | JStr s => json_quote s
  | JArr items => "[" +:+ join "," (map JSON_stringify items) +:+ "]"
  | JObj fields =>
      "{" +:+ join "," (map (fun kv => json_quote (fst kv) +:+ ":" +:+ JSON_stringify (snd kv)) fields) +:+ "}"
  end.

(** ** A path parser for plain URLs *)

Fixpoint drop_until (stop : ascii -> bool) (s : string) : string :=
  match s with
  | EmptyString => EmptyString
  | String c rest => if stop c then s else drop_until stop rest
  end.

Fixpoint take_until (stop : ascii -> bool) (s : string) : string :=
  match s with
  | EmptyString => EmptyString
  | String c rest => if stop c then EmptyString else String c (take_until stop rest)
  end.

Definition is_one_of (cs : string) (c : ascii) : bool :=
  existsb (Ascii.eqb c) (list_ascii_of_string cs).

Definition strip_prefix (p s : string) : option string :=
  if String.prefix p s then Some (String.substring (String.length p) (String.length s - String.length p) s)
  else None.

(** The path (pathname and query, without the fragment) of a URL that opens
    with a lower-case [http://] or [https://]; of a string without scheme (no
    colon) the string up to its fragment, as of a relative URL.  It agrees
    with node's [url.parse(u).path] on such strings when they hold no
    character that [url.parse] trims or escapes.  The methods do not use it:
    they take [url.parse(u).path] from the environment; the example
    environments supply this parser, and their URLs are all of that kind. *)
Definition plain_url_path (u : string) : string :=
  let after_scheme :=
    match strip_prefix "https://" u with
    | Some r => Some r
    | None => strip_prefix "http://" u
    end in
  match after_scheme with
  | Some r =>
      let rest := take_until (is_one_of "#") (drop_until (is_one_of "/?#") r) in
      if String.prefix "/" rest then rest else "/" +:+ rest
  | None => take_until (is_one_of "#") u
  end.



(** ** lodash string helpers (on ASCII letters) *)

Definition upper_char (c : ascii) : ascii :=
  let n := N_of_ascii c in
  if ((97 <=? n) && (n <=? 122))%N then ascii_of_N (n - 32) else c.

Definition lower_char (c : ascii) : ascii :=
  let n := N_of_ascii c in
  if ((65 <=? n) && (n <=? 90))%N then ascii_of_N (n + 32) else c.

Fixpoint map_string (f : ascii -> ascii) (s : string) : string :=
  match s with
  | EmptyString => EmptyString
  | String c rest => String (f c) (map_string f rest)
  end.

(** [_.toUpper] *)
Definition toUpper (s : string) : string := map_string upper_char s.

(** [_.capitalize]: first character upper case, the rest lower case. *)
Definition capitalize (s : string) : string :=
  match s with
  | EmptyString => EmptyString
  | String c rest => String (upper_char c) (map_string lower_char rest)
  end.

(** [s.indexOf(needle)]: position of the first occurrence, or -1. *)
Definition indexOf (s needle : string) : Z :=
  match String.index 0 needle s with
  | Some i => Z.of_nat i
  | None => -1
  end.

(** A string is truthy when it is not empty. *)
Definition truthy_string (s : string) : bool := negb (String.eqb s "").

(** ** Data model *)

(** An order as the exchange reports it: the fields the client reads. *)
Record Order := mkOrder { order_id : Z; order_state : string }.

(** [meta] of an order listing; a field the object does not have is [None]. *)
Record Meta := mkMeta {
  current_page : option Z;
  total_pages : option Z;
  total_count : option Z
}.

(** The parsed JSON document of a response, by the fields the client reads. *)
Inductive body : Type :=
| OrderBody (o : Order)                    (* order: ... *)
| OrdersBody (os : list Order) (m : Meta)  (* orders: [...], meta: ... *)
| OtherBody (j : json)
| NoBody.

(** The result envelope, [response.json] or [error.json]: the document with
    the flags [success] and [error_type] next to its fields. *)
Record envelope := mkEnvelope {
  success : bool;
  error_type : option string;
  env_data : body
}.

(** The arguments a callback is invoked with: [callback(error, result)],
    [None] for [null]. *)
Record callback_args := Cb {
  cb_error : option envelope;
  cb_result : option envelope
}.

Inductive header_value : Type :=
| HStr (s : string)
| HNum (n : Z)
| HUndefined.

Record request := mkRequest {
  req_verb : string;
  req_url : string;
  req_headers : gmap string header_value;
  req_body : option json
}.

(** What superagent hands to [.end]: an error that carries no response (the
    exchange was not reached), an error carrying the server's error document
    ([error.response.error]: declared kind and details), or a response with
    its parsed body. *)
Inductive http_result : Type :=
| HttpNoResponse                                   (* an error without [response] *)
| HttpError (kind : option string) (details : json)
| HttpOk (b : body).

(** Observable effects, in the order they happen. *)
Inductive event : Type :=
| EvNow (t : Z)                 (* new Date().getTime() *)
| EvRequest (r : request)       (* one HTTP round trip *)
| EvTimeout (ms : Z)            (* setTimeout(..., ms) elapsed *)
| EvConsoleError (msg : string).

(** The environment of a client: the clock and the exchange answer as a
    function of everything that happened before; the remaining fields are the
    libraries and tables the client imports. *)
Record Env := mkEnv {
  now : list event -> Z;
  transport : list event -> request -> http_result;
  validate : string -> string -> bool;   (* bitcoin-address: validate(address, network) *)
  lowerCase : string -> string;          (* lodash lowerCase *)
  colombiaBanks : list (string * json);  (* lib/banks: name and id of each bank *)
  url_parse_path : string -> string;     (* node's url: url.parse(u).path *)
  product : number -> Z -> json;         (* [x * n] on doubles, as the JSON value sent *)
  toSatoshi : number -> json             (* bitcoin-math: [x.toSatoshi()], as the JSON value sent *)
}.

(** ** Effects: a state-and-error monad over the event log *)

Inductive res (A : Type) : Type :=
| Ret (a : A)
| Throw (msg : string)     (* a JavaScript exception: the callback is not invoked *)
| Stuck (why : string)     (* a value the data model cannot express *)
| Diverge.                 (* the recursion budget of the model ran out *)
Arguments Ret {A} a.
Arguments Throw {A} msg.
Arguments Stuck {A} why.
Arguments Diverge {A}.

Definition M (A : Type) : Type := list event -> res A * list event.

Definition ret {A} (a : A) : M A := fun log => (Ret a, log).
Definition throw {A} (msg : string) : M A := fun log => (Throw msg, log).
Definition stuck {A} (why : string) : M A := fun log => (Stuck why, log).
Definition diverge {A} : M A := fun log => (Diverge, log).

Definition bind {A B} (m : M A) (k : A -> M B) : M B :=
  fun log =>
    match m log with
    | (Ret a, log') => k a log'
    | (Throw msg, log') => (Throw msg, log')
    | (Stuck why, log') => (Stuck why, log')
    | (Diverge, log') => (Diverge, log')
    end.

Notation "'let*' x ':=' m 'in' k" := (bind m (fun x => k))
  (at level 10, x name, m at level 100, k at level 200).

Definition emit (e : event) : M unit := fun log => (Ret tt, log ++ [e]).

Definition requests_of (log : list event) : list request :=
  flat_map (fun e => match e with EvRequest r => [r] | _ => [] end) log.

Definition timeouts_of (log : list event) : list Z :=
  flat_map (fun e => match e with EvTimeout ms => [ms] | _ => [] end) log.

(** ** lib/response_handler *)

(** Modelled from the spec: [lib/response_handler] is not among the sources.
    On transport success: mark success and pass the parsed JSON body through
    unchanged. *)
Definition responseHandler_success (b : body) : envelope :=
  mkEnvelope true None b.

(** Modelled from the spec: [lib/response_handler] is not among the sources.
    On a transport failure: mark failure, extract whatever structured error
    body the server returned, tag with the server-declared error kind. *)
Definition responseHandler_errorSet (kind : option string) (details : json) : envelope :=
  mkEnvelope false kind (OtherBody details).

(** Modelled from the spec: [lib/response_handler] is not among the sources.
    A local precondition failure: a failure envelope with the fixed error kind
    and no data. *)
Definition responseHandler_invalidRequest (kind : string) : envelope :=
  mkEnvelope false (Some kind) NoBody.


(** ** The client *)

Record Client := mkClient {
  api : string;
  key : string;
  secret : string;
  headers : gmap string header_value
}.

Record options := mkOptions {
  opt_api : option string;
  opt_key : option string;
  opt_secret : option string;
  opt_headers : option (gmap string header_value)
}.

(** [o || d] on an optional string: an absent or empty string yields [d]. *)
Definition or_default (o : option string) (d : string) : string :=
  match o with
  | Some s => if truthy_string s then s else d
  | None => d
  end.

Definition default_headers : gmap string header_value :=
  <["Accept" := HStr "application/json"]> (<["Content-Type" := HStr "application/json"]> ∅).

(** [function Client (options)] (src/index.js 13-22, part_002 15-26); the two
    revisions differ in the default endpoint only.  ([this.params] is stored and never read.) *)
Definition new_Client (default_api : string) (o : options) : Client :=
  mkClient (or_default (opt_api o) default_api)
           (or_default (opt_key o) "")
           (or_default (opt_secret o) "")
           (match opt_headers o with Some h => h | None => default_headers end).

(** [Client.prototype._getFullUrl] (src/index.js 24-26) *)
Definition _getFullUrl (c : Client) (path : string) : string := api c +:+ path.

Definition ApiKeyRequired : string := "InvalidRequest:ApiKeyRequired".
Definition InvalidBitcoinAddress : string := "InvalidRequest:InvalidBitcoinAddress".

(** The methods that read the same in both revisions; line numbers are those
    of src/index.js. *)
Section Methods.

Variable E : Env.

(** [new Date().getTime()] *)
Definition getTime : M Z :=
  fun log => let t := now E log in (Ret t, log ++ [EvNow t]).

(** [Client.prototype._getHmac] (28-49); [data] is [None] when the argument is
    omitted. *)
Definition _getHmac (c : Client) (timestamp : Z) (method path : string)
    (data : option json) : M (option string) :=
  let fullPath := url_parse_path E (_getFullUrl c path) in
  if String.eqb method "GET" then
    ret (Some (hmac_sha384_hex (secret c)
                 ("GET" +:+ " " +:+ fullPath +:+ " " +:+ string_of_Z timestamp)))
  else if String.eqb method "POST" || String.eqb method "PUT" then
    match data with
    | None => throw "TypeError: new Buffer(undefined)"
    | Some d =>
        let encodedData := base64 (JSON_stringify d) in
        ret (Some (hmac_sha384_hex (secret c)
                     (method +:+ " " +:+ fullPath +:+ " " +:+ encodedData +:+ " "
                      +:+ string_of_Z timestamp)))
    end
  else
    let* _ := emit (EvConsoleError ("Authentication for " +:+ method +:+ " is not implemented")) in
    ret None.

Definition signature_header (sig : option string) : header_value :=
  match sig with
  | Some s => HStr s
  | None => HUndefined
  end.

(** The object literal [authHeaders] of [_getAuthHeaders]. *)
Definition authHeaders (key : string) (timestamp : Z) (sig : option string)
    : gmap string header_value :=
  <["X-SBTC-APIKEY" := HStr key]>
    (<["X-SBTC-NONCE" := HNum timestamp]>
      (<["X-SBTC-SIGNATURE" := signature_header sig]> ∅)).

(** [Client.prototype._getAuthHeaders] (51-66): the three authentication
    headers, then every base header assigned over them (the [for ... in] loop
    is the left-biased union). *)
Definition _getAuthHeaders (c : Client) (method path : string) (data : option json)
    : M (gmap string header_value) :=
  let* timestamp := getTime in
  let* sig := _getHmac c timestamp method path data in
  ret (headers c ∪ authHeaders (key c) timestamp sig).

(** [http.verb(url).set(headers).send(body).end(...)]: one round trip. *)
Definition http_end (r : request) : M http_result :=
  fun log => (Ret (transport E log r), log ++ [EvRequest r]).

(** The handler every method passes to [.end]:
    [if (error) (errorSet(error, error.response.error); return callback(error.json, null))]
    [success ...; callback(null, response.json)].
    For an error without response, reading [error.response.error] throws. *)
Definition end_callback (r : http_result) : M callback_args :=
  match r with
  | HttpNoResponse => throw "TypeError: Cannot read property 'error' of undefined"
  | HttpError kind details => ret (Cb (Some (responseHandler_errorSet kind details)) None)
  | HttpOk b => ret (Cb None (Some (responseHandler_success b)))
  end.

(** The guard every authenticated method starts its request with:
    [if (this.secret === '') (invalidRequest ...; return callback(err.json, null))]. *)
Definition api_key_required : callback_args :=
  Cb (Some (responseHandler_invalidRequest ApiKeyRequired)) None.

(** The third argument of [getExchangeFee]: the market-order flag, with the
    callback in fourth position, or the callback itself, the fourth argument
    then being [undefined]. *)
Inductive fee_arg : Type :=
| MarketOrder (flag : bool)
| CallbackThird.

(** [Client.prototype.getExchangeFee] (106-137) *)
Definition getExchangeFee (c : Client) (marketId type : string) (marketOrder : fee_arg)
    : M callback_args :=
  let type := capitalize type in
  let path := "/markets/" +:+ marketId +:+ "/fee_percentage?type=" +:+ type in
  if String.eqb (secret c) "" then
    match marketOrder with
    | MarketOrder _ => ret api_key_required
    | CallbackThird => throw "TypeError: callback is not a function"
    end
  else
    let path :=
      match marketOrder with
      | MarketOrder true => path +:+ "&market_order=true"
      | _ => path
      end in
    let* hdrs := _getAuthHeaders c "GET" path None in
    let* r := http_end (mkRequest "GET" (_getFullUrl c path) hdrs None) in
    end_callback r.

Definition quotation_data (type : string) (reverse : bool) (amount : number) : json :=
  JObj [("quotation",
         JObj [("type", JStr type); ("reverse", JBool reverse); ("amount", json_of_number amount)])].

(** [Client.prototype.getQuotation] (159-191) *)
Definition getQuotation (c : Client) (marketId type : string) (amount : number) : M callback_args :=
  let type := lowerCase E type in
  let path := "/markets/" +:+ marketId +:+ "/quotations" in
  if String.eqb (secret c) "" then ret api_key_required
  else
    let data := quotation_data type false amount in
    let* hdrs := _getAuthHeaders c "POST" path (Some data) in
    let* r := http_end (mkRequest "POST" (_getFullUrl c path) hdrs (Some data)) in
    end_callback r.

(** [Client.prototype.getReverseQuotation] (193-225) *)
Definition getReverseQuotation (c : Client) (marketId type : string) (amount : number) : M callback_args :=
  let type := lowerCase E type in
  let path := "/markets/" +:+ marketId +:+ "/quotations" in
  if String.eqb (secret c) "" then ret api_key_required
  else
    let data := quotation_data type true amount in
    let* hdrs := _getAuthHeaders c "POST" path (Some data) in
    let* r := http_end (mkRequest "POST" (_getFullUrl c path) hdrs (Some data)) in
    end_callback r.

(** [Client.prototype.createOrder] (227-250) *)
Definition createOrder (c : Client) (marketId : string) (order : json) : M callback_args :=
  let path := "/markets/" +:+ marketId +:+ "/orders" in
  if String.eqb (secret c) "" then ret api_key_required
  else
    let* hdrs := _getAuthHeaders c "POST" path (Some order) in
    let* r := http_end (mkRequest "POST" (_getFullUrl c path) hdrs (Some order)) in
    end_callback r.

(** [Client.prototype.getOrdersRaw] (317-342); the number 0 is the falsy page. *)
Definition getOrdersRaw (c : Client) (marketId : string) (page : Z) : M callback_args :=
  let path := "/markets/" +:+ marketId +:+ "/orders" in
  if String.eqb (secret c) "" then ret api_key_required
  else
    let path := if page =? 0 then path else path +:+ "?page=" +:+ string_of_Z page in
    let* hdrs := _getAuthHeaders c "GET" path None in
    let* r := http_end (mkRequest "GET" (_getFullUrl c path) hdrs None) in
    end_callback r.

(** [Client.prototype.getOrderId] (370-391) *)
Definition getOrderId (c : Client) (orderId : Z) : M callback_args :=
  let path := "/orders/" +:+ string_of_Z orderId in
  if String.eqb (secret c) "" then ret api_key_required
  else
    let* hdrs := _getAuthHeaders c "GET" path None in
    let* r := http_end (mkRequest "GET" (_getFullUrl c path) hdrs None) in
    end_callback r.


(** [a === b] and [a < b] on numbers, [None] being [NaN] or [undefined]. *)
Definition num_eq (a b : option Z) : bool :=
  match a, b with
  | Some x, Some y => x =? y
  | _, _ => false
  end.

Definition num_lt (a b : option Z) : bool :=
  match a, b with
  | Some x, Some y => x <? y
  | _, _ => false
  end.

(** The [state] argument of the pager: [None] is the [false] that [getOrders]
    passes; a string is truthy when it is not empty. *)
Definition truthy_state (state : option string) : bool :=
  match state with
  | Some s => truthy_string s
  | None => false
  end.

(** The predicate of [_.filter(orders.orders, (state: state))]. *)
Definition has_state (state : option string) (o : Order) : bool :=
  match state with
  | Some s => String.eqb (order_state o) s
  | None => false
  end.

(** [Client.prototype._getOrderPages] (252-283); [loopFunction] is the method
    itself, [fuel] bounds the number of its activations.  [orders] is mutated
    in place by the method and rebuilt here. *)
Fixpoint _getOrderPages (fuel : nat) (c : Client) (orders : envelope) (marketId : string)
    (state : option string) : M callback_args :=
  match fuel with
  | O => diverge
  | S fuel' =>
      match env_data orders with
      | OrdersBody os m =>
          let page := current_page m in
          let filtering := success orders && truthy_state state in
          let os1 := if filtering then List.filter (has_state state) os else os in
          let m1 :=
            if filtering && num_eq page (total_pages m)
            then mkMeta None None (Some (Z.of_nat (length os1)))
            else m in
          if success orders && num_lt page (total_pages m1) then
            let page := match page with Some p => Z.succ p | None => 0 end in
            let* r := getOrdersRaw c marketId page in
            match cb_error r, cb_result r with
            | Some error, _ => ret (Cb (Some error) None)
            | None, Some response =>
                match env_data response with
                | OrdersBody ros _ =>
                    let m2 := mkMeta (Some page) (total_pages m1) (total_count m1) in
                    _getOrderPages fuel' c
                      (mkEnvelope (success orders) (error_type orders) (OrdersBody (os1 ++ ros) m2))
                      marketId state
                | _ => stuck "response.orders is not an array of orders"
                end
            | None, None => throw "TypeError: response is null"
            end
          else
            ret (Cb None (Some (mkEnvelope (success orders) (error_type orders) (OrdersBody os1 m1))))
      | _ => throw "TypeError: orders.meta is undefined"
      end
  end.

(** [Client.prototype._getOrderState] (285-301); [fuel] bounds the number of
    its activations. *)
Fixpoint _getOrderState (fuel : nat) (c : Client) (order : envelope) (status : string)
    : M callback_args :=
  match fuel with
  | O => diverge
  | S fuel' =>
      if success order then
        match env_data order with
        | OrderBody o =>
            if negb (String.eqb (order_state o) status) then
              let* r := getOrderId c (order_id o) in
              match cb_error r, cb_result r with
              | Some error, _ => ret (Cb (Some error) None)
              | None, Some response =>
                  let* _ := emit (EvTimeout 500) in
                  _getOrderState fuel' c response status
              | None, None =>
                  let* _ := emit (EvTimeout 500) in
                  throw "TypeError: order is null"
              end
            else ret (Cb None (Some order))
        | _ => throw "TypeError: order.order is undefined"
        end
      else ret (Cb None (Some order))
  end.

(** [Client.prototype.pollOrders] (303-308) *)
Definition pollOrders (fuel : nat) (c : Client) (orders : envelope) (marketId : string)
    (state : option string) : M callback_args :=
  _getOrderPages fuel c orders marketId state.

(** [Client.prototype.pollOrderState] (310-315) *)
Definition pollOrderState (fuel : nat) (c : Client) (order : envelope) (status : string)
    : M callback_args :=
  _getOrderState fuel c order status.

(** [async.waterfall] of two tasks: an error of the first task goes to the
    final callback with the task's arguments, its result to the second task. *)
Definition waterfall (first : M callback_args) (second : envelope -> M callback_args)
    : M callback_args :=
  let* r := first in
  match cb_error r, cb_result r with
  | Some _, _ => ret r
  | None, Some x => second x
  | None, None => throw "TypeError: the first task passed no result"
  end.

(** [Client.prototype.getOrders] (344-355) *)
Definition getOrders (fuel : nat) (c : Client) (marketId : string) : M callback_args :=
  waterfall (getOrdersRaw c marketId 0)
            (fun orders => pollOrders fuel c orders marketId None).

(** [Client.prototype.getOrdersByState] (357-368) *)
Definition getOrdersByState (fuel : nat) (c : Client) (marketId state : string)
    : M callback_args :=
  waterfall (getOrdersRaw c marketId 0)
            (fun orders => pollOrders fuel c orders marketId (Some state)).

(** [Client.prototype.createAndTradeOrder] (422-433) *)
Definition createAndTradeOrder (fuel : nat) (c : Client) (marketId : string) (order : json)
    : M callback_args :=
  waterfall (createOrder c marketId order)
            (fun createdOrder => pollOrderState fuel c createdOrder "traded").

End Methods.


(** ** src/index.js: the methods that differ from the later revision *)

Module Index.

Definition default_api : string := "https://surbtc.com/api/v1".

Definition newClient (o : options) : Client := new_Client default_api o.

(** [Client.prototype.getBalances] (84-104) *)
Definition getBalances (E : Env) (c : Client) (currency : string) : M callback_args :=
  let path := "/balances/" +:+ currency in
  if String.eqb (secret c) "" then ret (api_key_required)
  else
    let* hdrs := _getAuthHeaders E c "GET" path None in
    let* r := http_end E (mkRequest "GET" (_getFullUrl c path) hdrs None) in
    end_callback r.

(** [Client.prototype.cancelOrderId] (393-420): the request is a PUT with a
    body; the headers are built for [('GET', path)]. *)
Definition cancelOrderId (E : Env) (c : Client) (orderId : Z) : M callback_args :=
  let path := "/orders/" +:+ string_of_Z orderId in
  if String.eqb (secret c) "" then ret (api_key_required)
  else
    let* hdrs := _getAuthHeaders E c "GET" path None in
    let* r := http_end E (mkRequest "PUT" (_getFullUrl c path) hdrs
                            (Some (JObj [("state", JStr "canceling")]))) in
    match r with
    | HttpNoResponse => throw "TypeError: Cannot read property 'error' of undefined"
    | HttpError kind details => ret (Cb (Some (responseHandler_errorSet kind details)) None)
    | HttpOk b =>
        let response_json := responseHandler_success b in
        match env_data response_json with
        | OrderBody o =>
            if negb (String.eqb (order_state o) "canceling")
               && negb (String.eqb (order_state o) "canceled")
            then ret (Cb (Some (mkEnvelope false (Some "order_not_valid_for_canceling") (env_data response_json))) None)
            else ret (Cb None (Some response_json))
        | _ => throw "TypeError: response.json.order is undefined"
        end
    end.

End Index.

(** ** src/unnamed/part_002: the later revision *)

Module Part002.

Definition default_api : string := "https://www.surbtc.com/api/v2".

Definition newClient (o : options) : Client := new_Client default_api o.

(** [Client.prototype.getBalances] (86-111) *)
Definition getBalances (E : Env) (c : Client) (currency : string) : M callback_args :=
  let path := "/balances" in
  let path := if truthy_string currency then path +:+ "/" +:+ currency else path in
  if String.eqb (secret c) "" then ret (api_key_required)
  else
    let* hdrs := _getAuthHeaders E c "GET" path None in
    let* r := http_end E (mkRequest "GET" (_getFullUrl c path) hdrs None) in
    end_callback r.

(** [Client.prototype.cancelOrderId] (400-429) *)
Definition cancelOrderId (E : Env) (c : Client) (orderId : Z) : M callback_args :=
  let path := "/orders/" +:+ string_of_Z orderId in
  if String.eqb (secret c) "" then ret (api_key_required)
  else
    let data := JObj [("state", JStr "canceling")] in
    let* hdrs := _getAuthHeaders E c "PUT" path (Some data) in
    let* r := http_end E (mkRequest "PUT" (_getFullUrl c path) hdrs (Some data)) in
    match r with
    | HttpNoResponse => throw "TypeError: Cannot read property 'error' of undefined"
    | HttpError kind details => ret (Cb (Some (responseHandler_errorSet kind details)) None)
    | HttpOk b =>
        let response_json := responseHandler_success b in
        match env_data response_json with
        | OrderBody o =>
            if negb (String.eqb (order_state o) "canceling")
               && negb (String.eqb (order_state o) "canceled")
            then ret (Cb (Some (mkEnvelope false (Some "order_not_valid_for_canceling") (env_data response_json))) None)
            else ret (Cb None (Some response_json))
        | _ => throw "TypeError: response.json.order is undefined"
        end
    end.

Record bank_account_opts := mkBankAccountOpts {
  bank_currency : string;
  bank_name : string;
  email : string;
  phone : string;
  bank_account_holder_id : string;
  bank_account_holder_name : string;
  bank_account_number : string;
  bank_account_type : string
}.

(** [_.find(colombiaBanks, (name: name))]: the id of the first bank of that name. *)
Fixpoint find_bank (banks : list (string * json)) (name : string) : option json :=
  match banks with
  | [] => None
  | (n, id) :: rest => if String.eqb n name then Some id else find_bank rest name
  end.

(** [Client.prototype.registerBankAccount] (444-480) *)
Definition registerBankAccount (E : Env) (c : Client) (opts : bank_account_opts)
    : M callback_args :=
  let currency := toUpper (bank_currency opts) in
  let path := "/fiat_accounts/" +:+ currency in
  match find_bank (colombiaBanks E) (bank_name opts) with
  | None => throw "TypeError: cannot read property id of undefined"
  | Some bankId =>
      let surbtcOpts :=
        JObj [("email", JStr (email opts));
              ("phone", JStr (phone opts));
              ("document_number", JStr (bank_account_holder_id opts));
              ("full_name", JStr (bank_account_holder_name opts));
              ("account_number", JStr (bank_account_number opts));
              ("account_type", JStr (bank_account_type opts));
              ("bank_id", bankId)] in
      if String.eqb (secret c) "" then ret (api_key_required)
      else
        let* hdrs := _getAuthHeaders E c "PUT" path (Some surbtcOpts) in
        let* r := http_end E (mkRequest "PUT" (_getFullUrl c path) hdrs (Some surbtcOpts)) in
        end_callback r
  end.

Record withdrawal_opts := mkWithdrawalOpts {
  currency : string;
  target_address : string;
  amount : number
}.

Definition withdrawalOpts (withdrawal_data : list (string * json)) (amount : json)
    (currency : string) : json :=
  JObj [("withdrawal_data", JObj withdrawal_data); ("amount", amount); ("currency", JStr currency)].

(** [Client.prototype.requestWithdrawal] (482-529): the address test, the
    amount conversion, then the guard and the request. *)
Definition requestWithdrawal (E : Env) (c : Client) (opts : withdrawal_opts)
    : M callback_args :=
  let path := "/withdrawals" in
  let currency := toUpper (currency opts) in
  let prepared : callback_args + json :=
    if String.eqb currency "BTC" then
      if ((0 <? indexOf (api c) "stg") && negb (validate E (target_address opts) "testnet"))
         || ((indexOf (api c) "stg" <? 0) && negb (validate E (target_address opts) "prod"))
      then inl (Cb (Some (responseHandler_invalidRequest InvalidBitcoinAddress)) None)
      else inr (withdrawalOpts [("target_address", JStr (target_address opts))]
                               (toSatoshi E (amount opts)) currency)
    else if String.eqb currency "CLP" || String.eqb currency "COP" then
      inr (withdrawalOpts [] (product E (amount opts) 100) currency)
    else inr (withdrawalOpts [] (JNum 0) currency) in
  match prepared with
  | inl early => ret early
  | inr body =>
      if String.eqb (secret c) "" then ret (api_key_required)
      else
        let* hdrs := _getAuthHeaders E c "POST" path (Some body) in
        let* r := http_end E (mkRequest "POST" (_getFullUrl c path) hdrs (Some body)) in
        end_callback r
  end.

Record deposit_opts := mkDepositOpts {
  deposit_amount : number;
  deposit_currency : string
}.

(** [Client.prototype.registerDeposit] (531-558) *)
Definition registerDeposit (E : Env) (c : Client) (opts : deposit_opts)
    : M callback_args :=
  let path := "/deposits" in
  let depositOpts :=
    JObj [("amount", product E (deposit_amount opts) 100);
          ("currency", JStr (toUpper (deposit_currency opts)))] in
  if String.eqb (secret c) "" then ret (api_key_required)
  else
    let* hdrs := _getAuthHeaders E c "POST" path (Some depositOpts) in
    let* r := http_end E (mkRequest "POST" (_getFullUrl c path) hdrs (Some depositOpts)) in
    end_callback r.

End Part002.


(** ** Predicates and scenarios used in the statements *)

Definition is_lower_hex (c : ascii) : bool := is_one_of "0123456789abcdef" c.

Fixpoint string_forallb (p : ascii -> bool) (s : string) : bool :=
  match s with
  | EmptyString => true
  | String c rest => p c && string_forallb p rest
  end.


Arguments hmac_sha384_hex : simpl never.
Arguments plain_url_path : simpl never.
Arguments base64 : simpl never.
Arguments JSON_stringify : simpl never.
Arguments string_of_Z : simpl never.

(** The exchange answers every request for [url] with [r], whatever happened before. *)
Definition answers (E : Env) (url : string) (r : http_result) : Prop :=
  forall log rq, req_url rq = url -> transport E log rq = r.

(** The amount arithmetic of the example environments.  The examples use small
    whole amounts only, on which the double-precision product is the product
    of integers and one bitcoin is 100000000 satoshis. *)
Definition whole_product (x : number) (n : Z) : json :=
  match x with
  | NInt a => JNum (a * n)
  | NDouble _ => JNull
  end.

Definition whole_toSatoshi (x : number) : json := whole_product x 100000000.

(** A clock that advances with every event, a bitcoin-address check that
    rejects everything, the path parser for plain URLs, and an exchange
    described by [server]. *)
Definition env_with (server : request -> http_result) : Env :=
  mkEnv (fun log => 1500000000000 + Z.of_nat (length log))
        (fun _ rq => server rq)
        (fun _ _ => false)
        (fun s => s)
        [("Bancolombia", JNum 1)]
        plain_url_path whole_product whole_toSatoshi.

Definition silent_env : Env := env_with (fun _ => HttpOk NoBody).

Definition anonymous : Client := Part002.newClient (mkOptions None None None None).

Definition trader : Client :=
  Part002.newClient (mkOptions None (Some "my-key") (Some "my-secret") None).

(** The address test of [requestWithdrawal], as the method writes it: taken for
    the currency BTC only, against the test network when [stg] occurs in the
    endpoint after its first character, against the main network when it does
    not occur. *)
Definition address_rejected (E : Env) (c : Client) (opts : Part002.withdrawal_opts) : bool :=
  String.eqb (toUpper (Part002.currency opts)) "BTC"
  && (((0 <? indexOf (api c) "stg") && negb (validate E (Part002.target_address opts) "testnet"))
      || ((indexOf (api c) "stg" <? 0) && negb (validate E (Part002.target_address opts) "prod"))).

Definition local_failure (kind : string) : callback_args :=
  Cb (Some (mkEnvelope false (Some kind) NoBody)) None.

(** The request an authenticated GET of [path] issues after [log]. *)
Definition signed_get (E : Env) (c : Client) (path : string) (log : list event) : request :=
  mkRequest "GET" (_getFullUrl c path)
    (headers c ∪ authHeaders (key c) (now E log)
       (Some (hmac_sha384_hex (secret c)
                ("GET" +:+ " " +:+ url_parse_path E (_getFullUrl c path) +:+ " "
                 +:+ string_of_Z (now E log)))))
    None.

Definition order_url (c : Client) (orderId : Z) : string :=
  _getFullUrl c ("/orders/" +:+ string_of_Z orderId).

Definition listing_path (marketId : string) : string :=
  "/markets/" +:+ marketId +:+ "/orders".

Definition page_path (marketId : string) (page : Z) : string :=
  listing_path marketId +:+ "?page=" +:+ string_of_Z page.

(** The URLs of [n] successive pages, from page [k] on. *)
Fixpoint page_urls (c : Client) (marketId : string) (k : Z) (n : nat) : list string :=
  match n with
  | O => []
  | S n' => _getFullUrl c (page_path marketId k) :: page_urls c marketId (Z.succ k) n'
  end.

(** The exchange serves the pages [k], [k+1], ... with the given orders. *)
Fixpoint serves_pages (E : Env) (c : Client) (marketId : string) (k : Z)
    (pages : list (list Order)) : Prop :=
  match pages with
  | [] => True
  | os :: rest =>
      (exists m, answers E (_getFullUrl c (page_path marketId k)) (HttpOk (OrdersBody os m)))
      /\ serves_pages E c marketId (Z.succ k) rest
  end.

(** What the pager keeps of an accumulation: with a truthy filter, the orders
    in that state. *)
Definition keep (state : option string) (os : list Order) : list Order :=
  if truthy_state state then List.filter (has_state state) os else os.

(** The accumulation after merging further pages, one activation each. *)
Definition absorb (state : option string) (acc : list Order) (pages : list (list Order))
    : list Order :=
  fold_left (fun a os => keep state a ++ os) pages acc.

Definition listing (et : option string) (os : list Order) (page total : Z) (tc : option Z)
    : envelope :=
  mkEnvelope true et (OrdersBody os (mkMeta (Some page) (Some total) tc)).

(** An exchange on which order 42 has been traded. *)
Definition traded_env : Env :=
  env_with (fun _ => HttpOk (OrderBody (mkOrder 42 "traded"))).

Definition pending_order : envelope :=
  mkEnvelope true None (OrderBody (mkOrder 42 "pending")).

Definition failed_order : envelope :=
  mkEnvelope false (Some "order_not_valid_for_canceling") (OrderBody (mkOrder 42 "filled")).

(** The body [cancelOrderId] sends. *)
Definition cancel_body : json := JObj [("state", JStr "canceling")].

(** An exchange on which order 42 has been filled, and one on which it is being canceled. *)
Definition filled_env : Env :=
  env_with (fun _ => HttpOk (OrderBody (mkOrder 42 "filled"))).

Definition canceling_env : Env :=
  env_with (fun _ => HttpOk (OrderBody (mkOrder 42 "canceling"))).

(** A market with five orders on three pages. *)
Definition btc_clp_orders : string := "https://www.surbtc.com/api/v2/markets/btc-clp/orders".

Definition page_a : list Order := [mkOrder 1 "traded"; mkOrder 2 "pending"].
Definition page_b : list Order := [mkOrder 3 "pending"; mkOrder 4 "traded"].
Definition page_c : list Order := [mkOrder 5 "traded"].

(** The exchange numbers the pages 1, 2, 3; without page parameter it serves the first. *)
Definition one_based_listing (rq : request) : http_result :=
  if String.eqb (req_url rq) btc_clp_orders
  then HttpOk (OrdersBody page_a (mkMeta (Some 1) (Some 3) (Some 5)))
  else if String.eqb (req_url rq) (btc_clp_orders +:+ "?page=2")
  then HttpOk (OrdersBody page_b (mkMeta (Some 2) (Some 3) (Some 5)))
  else if String.eqb (req_url rq) (btc_clp_orders +:+ "?page=3")
  then HttpOk (OrdersBody page_c (mkMeta (Some 3) (Some 3) (Some 5)))
  else HttpError (Some "not_found") JNull.

(** The same listing with the pages numbered 0, 1, 2 and an empty page past the last. *)
Definition zero_based_listing (rq : request) : http_result :=
  if String.eqb (req_url rq) btc_clp_orders
  then HttpOk (OrdersBody page_a (mkMeta (Some 0) (Some 3) (Some 5)))
  else if String.eqb (req_url rq) (btc_clp_orders +:+ "?page=1")
  then HttpOk (OrdersBody page_b (mkMeta (Some 1) (Some 3) (Some 5)))
  else if String.eqb (req_url rq) (btc_clp_orders +:+ "?page=2")
  then HttpOk (OrdersBody page_c (mkMeta (Some 2) (Some 3) (Some 5)))
  else HttpOk (OrdersBody [] (mkMeta (Some 3) (Some 3) (Some 5))).

(** The one-based listing, with the third page failing. *)
Definition broken_listing (rq : request) : http_result :=
  if String.eqb (req_url rq) (btc_clp_orders +:+ "?page=3")
  then HttpError (Some "server_error") JNull
  else one_based_listing rq.

(** The one-based listing, the request for the third page failing without a
    response (a refused connection, a timeout). *)
Definition unreachable_listing (rq : request) : http_result :=
  if String.eqb (req_url rq) (btc_clp_orders +:+ "?page=3")
  then HttpNoResponse
  else one_based_listing rq.

(** A client configured with a scheme-less staging endpoint. *)
Definition staging_by_name : Client :=
  Part002.newClient (mkOptions (Some "stg.surbtc.com/api/v2") (Some "my-key") (Some "my-secret") None).

Definition staging : Client :=
  Part002.newClient
    (mkOptions (Some "https://stg.surbtc.com/api/v2") (Some "my-key") (Some "my-secret") None).

(** The network whose rules [requestWithdrawal] applies to a BTC address. *)
Definition address_network (c : Client) : string :=
  if 0 <? indexOf (api c) "stg" then "testnet" else "prod".

(** An environment whose bitcoin-address check accepts exactly one test-network address. *)
Definition testnet_env : Env :=
  mkEnv (fun log => 1500000000000 + Z.of_nat (length log))
        (fun _ _ => HttpOk NoBody)
        (fun address network =>
           String.eqb address "mipcBbFg9gMiCh81Kj8tqqdgoZub1ZJRfn" && String.eqb network "testnet")
        (fun s => s)
        []
        plain_url_path whole_product whole_toSatoshi.


(** ** The methods without authentication (the same in both revisions) *)

(** [Client.prototype.getMarkets] (src/index.js 68-82) *)
Definition getMarkets (E : Env) (c : Client) : M callback_args :=
  let path := "/markets" in
  let* r := http_end E (mkRequest "GET" (_getFullUrl c path) (headers c) None) in
  end_callback r.

(** [Client.prototype.getOrderBook] (src/index.js 143-157) *)
Definition getOrderBook (E : Env) (c : Client) (marketId : string) : M callback_args :=
  let path := "/markets/" +:+ marketId +:+ "/order_book" in
  let* r := http_end E (mkRequest "GET" (_getFullUrl c path) (headers c) None) in
  end_callback r.

(** ** Predicates of the further properties *)

(** The message that signs a request as it is sent: verb, path of the URL, the
    body in base64 when there is one, and the nonce. *)
Definition message_as_sent (E : Env) (rq : request) (nonce : Z) : string :=
  match req_body rq with
  | None =>
      req_verb rq +:+ " " +:+ url_parse_path E (req_url rq) +:+ " " +:+ string_of_Z nonce
  | Some b =>
      req_verb rq +:+ " " +:+ url_parse_path E (req_url rq) +:+ " "
      +:+ base64 (JSON_stringify b) +:+ " " +:+ string_of_Z nonce
  end.

(** The headers of [rq] are the client's base headers over the three
    authentication headers, the signature being taken over the request as sent. *)
Definition signed_as_sent (E : Env) (c : Client) (nonce : Z) (rq : request) : Prop :=
  req_headers rq
  = headers c ∪ authHeaders (key c) nonce
                  (Some (hmac_sha384_hex (secret c) (message_as_sent E rq nonce))).

(** The chain every authenticated method ends with:
    [http.verb(url).set(this._getAuthHeaders(verb, path, data)).send(data).end(...)]. *)
Definition authenticated_request (E : Env) (c : Client) (verb path : string)
    (data : option json) : M callback_args :=
  let* hdrs := _getAuthHeaders E c verb path data in
  let* r := http_end E (mkRequest verb (_getFullUrl c path) hdrs data) in
  end_callback r.

(** One authenticated round trip after [log]: the clock is read, then one
    request goes out, signed as sent over that reading, and the answer goes
    through the handler of [.end]. *)
Definition one_round_trip (E : Env) (c : Client) (verb path : string) (body : option json)
    (log : list event) (run : res callback_args * list event) : Prop :=
  exists rq,
    run = end_callback (transport E (log ++ [EvNow (now E log)]) rq)
            (log ++ [EvNow (now E log); EvRequest rq])
    /\ req_verb rq = verb /\ req_url rq = api c +:+ path /\ req_body rq = body
    /\ signed_as_sent E c (now E log) rq.

(** A log made of signed round trips and half-second delays only. *)
Inductive signed_log (E : Env) (c : Client) : list event -> Prop :=
| signed_log_nil : signed_log E c []
| signed_log_round (log : list event) (rq : request) :
    signed_log E c log ->
    signed_as_sent E c (now E log) rq ->
    signed_log E c (log ++ [EvNow (now E log); EvRequest rq])
| signed_log_delay (log : list event) :
    signed_log E c log ->
    signed_log E c (log ++ [EvTimeout 500]).

(** The exchange answers the successive refetches of an order, each by the id
    of the order fetched before, with the orders of [later]. *)
Fixpoint refetched (E : Env) (c : Client) (o : Order) (log : list event) (later : list Order)
    : Prop :=
  match later with
  | [] => True
  | o' :: rest =>
      let rq := signed_get E c ("/orders/" +:+ string_of_Z (order_id o)) log in
      transport E (log ++ [EvNow (now E log)]) rq = HttpOk (OrderBody o')
      /\ refetched E c o' (log ++ [EvNow (now E log); EvRequest rq; EvTimeout 500]) rest
  end.

(** An exchange on which order 42 is pending at the first request and traded
    from the second on. *)
Definition trading_env : Env :=
  mkEnv (fun log => 1500000000000 + Z.of_nat (length log))
        (fun log _ =>
           if (length (requests_of log) <? 1)%nat
           then HttpOk (OrderBody (mkOrder 42 "pending"))
           else HttpOk (OrderBody (mkOrder 42 "traded")))
        (fun _ _ => false)
        (fun s => s)
        [("Bancolombia", JNum 1)]
        plain_url_path whole_product whole_toSatoshi.

(** An exchange that creates order 42 as received and reports it traded when asked. *)
Definition create_and_trade_server (rq : request) : http_result :=
  if String.eqb (req_url rq) btc_clp_orders
  then HttpOk (OrderBody (mkOrder 42 "received"))
  else HttpOk (OrderBody (mkOrder 42 "traded")).

(** An exchange that never trades order 42. *)
Definition pending_env : Env :=
  env_with (fun _ => HttpOk (OrderBody (mkOrder 42 "pending"))).

(** An exchange that refuses every request. *)
Definition refusing_env : Env :=
  env_with (fun _ => HttpError (Some "forbidden") JNull).

(** An empty listing: no pages, the first page being reported as page 1. *)
Definition empty_listing_env : Env :=
  env_with (fun _ => HttpOk (OrdersBody [mkOrder 9 "pending"] (mkMeta (Some 1) (Some 0) (Some 1)))).

Definition a_limit_order : json :=
  JObj [("type", JStr "Bid"); ("price_type", JStr "limit"); ("limit", JNum 1000);
        ("amount", JNum 1)].

(** The request an authenticated POST of [data] to [path] issues after [log]. *)
Definition signed_post (E : Env) (c : Client) (path : string) (data : json) (log : list event)
    : request :=
  mkRequest "POST" (_getFullUrl c path)
    (headers c ∪ authHeaders (key c) (now E log)
       (Some (hmac_sha384_hex (secret c)
                ("POST" +:+ " " +:+ url_parse_path E (_getFullUrl c path) +:+ " "
                 +:+ base64 (JSON_stringify data) +:+ " " +:+ string_of_Z (now E log)))))
    (Some data).


(** * Properties *)

(** ** The embedded library functions on known values *)

Example sha384_abc :
  hex_of_bytes (SHA384.digest (bytes_of_string "abc")) =
  "cb00753f45a35e8bb5a03d699ac65007272c32ab0eded1631a8b605a43ff5bed8086072ba1e7cc2358baeca134c825a7".
Proof. vm_compute. reflexivity. Qed.

Example hmac_sha384_rfc4231_case2 :
  hmac_sha384_hex "Jefe" "what do ya want for nothing?" =
  "af45d2e376484031617f78d2b58a6b1b9c7ef464f5a01b47e42ec3736322445e8e2240ca5e69e2c78b3239ecfab21649".
Proof. vm_compute. reflexivity. Qed.

Example stringify_cancel_body :
  JSON_stringify (JObj [("state", JStr "canceling")]) =
  "{" +:+ dquote +:+ "state" +:+ dquote +:+ ":" +:+ dquote +:+ "canceling" +:+ dquote +:+ "}".
Proof. reflexivity. Qed.

Example base64_cancel_body :
  base64 (JSON_stringify (JObj [("state", JStr "canceling")])) = "eyJzdGF0ZSI6ImNhbmNlbGluZyJ9".
Proof. reflexivity. Qed.

Example plain_url_path_orders :
  plain_url_path "https://www.surbtc.com/api/v2/markets/btc-clp/orders?page=2" =
  "/api/v2/markets/btc-clp/orders?page=2".
Proof. reflexivity. Qed.

Example sha384_two_blocks :
  hex_of_bytes (SHA384.digest (bytes_of_string
    "abcdefghbcdefghicdefghijdefghijkefghijklfghijklmghijklmnhijklmnoijklmnopjklmnopqklmnopqrlmnopqrsmnopqrstnopqrstu")) =
  "09330c33f71147e83d192fc782cd1b4753111b173b3b05d22fa08086e3b0f712fcc7c71a557e2db966c3e9fa91746039".
Proof. vm_compute. reflexivity. Qed.

Example hmac_sha384_rfc4231_case6 :
  hex_of_bytes (hmac_sha384 (repeat 170 131)
    (bytes_of_string "Test Using Larger Than Block-Size Key - Hash Key First")) =
  "4ece084485813e9088d2c63a041bc5b44f9ef1012a2b588f3cd11f05033ac4c60c2ef6ab4030fe8296248df163f44952".
Proof. vm_compute. reflexivity. Qed.

Example base64_rfc4648 :
  map base64 [""; "f"; "fo"; "foo"; "foob"; "fooba"; "foobar"] =
  [""; "Zg=="; "Zm8="; "Zm9v"; "Zm9vYg=="; "Zm9vYmE="; "Zm9vYmFy"].
Proof. reflexivity. Qed.

Example stringify_quotation :
  JSON_stringify (JObj [("quotation",
                         JObj [("type", JStr "bid"); ("reverse", JBool false); ("amount", JNum (-1000))])]) =
  "{" +:+ dquote +:+ "quotation" +:+ dquote +:+ ":{" +:+ dquote +:+ "type" +:+ dquote +:+ ":"
  +:+ dquote +:+ "bid" +:+ dquote +:+ "," +:+ dquote +:+ "reverse" +:+ dquote +:+ ":false,"
  +:+ dquote +:+ "amount" +:+ dquote +:+ ":-1000}}".
Proof. reflexivity. Qed.

Example plain_url_path_without_path :
  plain_url_path "https://www.surbtc.com" = "/"
  /\ plain_url_path "http://localhost:3000?x=1#top" = "/?x=1".
Proof. split; reflexivity. Qed.

Example indexOf_stg :
  indexOf "https://stg.surbtc.com/api/v2" "stg" = 8
  /\ indexOf "https://www.surbtc.com/api/v2" "stg" = -1
  /\ indexOf "stg.surbtc.com/api/v2" "stg" = 0.
Proof. repeat split. Qed.

Example lodash_strings :
  toUpper "btc" = "BTC" /\ capitalize "bID" = "Bid" /\ capitalize "" = "".
Proof. repeat split. Qed.

(** ** Shape of a signature: 48 bytes, printed as 96 lowercase hexadecimal digits *)

Lemma hex_digit_lower (n : Z) : 0 <= n < 16 -> is_lower_hex (hex_digit n) = true.
Proof.
  intros Hn. destruct n as [| p | p]; [reflexivity | | lia].
  do 4 (try (destruct p as [p | p |])); try reflexivity; lia.
Qed.

Lemma hex_of_bytes_length (bs : bytes) :
  String.length (hex_of_bytes bs) = (2 * length bs)%nat.
Proof.
  induction bs as [| b rest IH]; simpl; [reflexivity |].
  rewrite IH. lia.
Qed.

Lemma hex_of_bytes_lower (bs : bytes) :
  Forall (fun b => 0 <= b < 256) bs ->
  string_forallb is_lower_hex (hex_of_bytes bs) = true.
Proof.
  induction 1 as [| b rest Hb _ IH]; [reflexivity |].
  cbn [hex_of_bytes string_forallb].
  rewrite !hex_digit_lower, IH; [reflexivity | |].
  - apply Z.mod_pos_bound. lia.
  - split; [apply Z.div_pos; lia | apply Z.div_lt_upper_bound; lia].
Qed.

Lemma be_bytes_length (n : nat) (x : Z) : length (SHA384.be_bytes n x) = n.
Proof. induction n as [| n IH]; simpl; [reflexivity | now rewrite IH]. Qed.

Lemma be_bytes_range (n : nat) (x : Z) :
  Forall (fun b => 0 <= b < 256) (SHA384.be_bytes n x).
Proof.
  induction n as [| n IH]; simpl; constructor; [| exact IH].
  change 255 with (Z.ones 8). rewrite Z.land_ones by lia.
  apply Z.mod_pos_bound. lia.
Qed.

Lemma compress_length (h : list Z) (block : bytes) :
  length h = 8%nat -> length (SHA384.compress h block) = 8%nat.
Proof.
  intros Hh. unfold SHA384.compress.
  rewrite length_map, length_combine, Hh. reflexivity.
Qed.

Lemma fold_compress_length (blocks : list bytes) (h : list Z) :
  length h = 8%nat -> length (fold_left SHA384.compress blocks h) = 8%nat.
Proof.
  revert h. induction blocks as [| b rest IH]; intros h Hh; simpl; [exact Hh |].
  apply IH, compress_length, Hh.
Qed.

Lemma flat_map_be_bytes_length (ws : list Z) :
  length (flat_map (SHA384.be_bytes 8) ws) = (8 * length ws)%nat.
Proof.
  induction ws as [| w rest IH]; [reflexivity |].
  cbn [flat_map]. rewrite length_app, be_bytes_length, IH. simpl. lia.
Qed.

Lemma flat_map_be_bytes_range (ws : list Z) :
  Forall (fun b => 0 <= b < 256) (flat_map (SHA384.be_bytes 8) ws).
Proof.
  induction ws as [| w rest IH]; [constructor |].
  cbn [flat_map]. apply Forall_app. split; [apply be_bytes_range | exact IH].
Qed.

Lemma digest_length (msg : bytes) : length (SHA384.digest msg) = 48%nat.
Proof.
  unfold SHA384.digest.
  rewrite flat_map_be_bytes_length, length_firstn, fold_compress_length by reflexivity.
  reflexivity.
Qed.

Lemma hmac_sha384_hex_shape (secret message : string) :
  String.length (hmac_sha384_hex secret message) = 96%nat /\
  string_forallb is_lower_hex (hmac_sha384_hex secret message) = true.
Proof.
  unfold hmac_sha384_hex, hmac_sha384. split.
  - rewrite hex_of_bytes_length, digest_length. reflexivity.
  - apply hex_of_bytes_lower. unfold SHA384.digest. apply flat_map_be_bytes_range.
Qed.

(** ** The signer *)

Lemma getHmac_GET (E : Env) (c : Client) (timestamp : Z) (path : string)
    (data : option json) (log : list event) :
  _getHmac E c timestamp "GET" path data log =
  (Ret (Some (hmac_sha384_hex (secret c)
                ("GET" +:+ " " +:+ url_parse_path E (_getFullUrl c path) +:+ " " +:+ string_of_Z timestamp))),
   log).
Proof. reflexivity. Qed.

Lemma getHmac_body (E : Env) (c : Client) (timestamp : Z) (method path : string)
    (d : json) (log : list event) :
  method = "POST" \/ method = "PUT" ->
  _getHmac E c timestamp method path (Some d) log =
  (Ret (Some (hmac_sha384_hex (secret c)
                (method +:+ " " +:+ url_parse_path E (_getFullUrl c path) +:+ " "
                 +:+ base64 (JSON_stringify d) +:+ " " +:+ string_of_Z timestamp))),
   log).
Proof. intros [-> | ->]; reflexivity. Qed.

Lemma getHmac_unsupported (E : Env) (c : Client) (timestamp : Z) (method path : string)
    (data : option json) (log : list event) :
  method <> "GET" -> method <> "POST" -> method <> "PUT" ->
  _getHmac E c timestamp method path data log =
  (Ret None,
   log ++ [EvConsoleError ("Authentication for " +:+ method +:+ " is not implemented")]).
Proof.
  intros Hget Hpost Hput. unfold _getHmac.
  apply String.eqb_neq in Hget, Hpost, Hput.
  rewrite Hget, Hpost, Hput. reflexivity.
Qed.

(** C1 (as amended).  For every secret, path, nonce and body the signer returns
    the lowercase-hex HMAC-SHA384, keyed with the secret, of the canonical
    message: for GET the message is METHOD PATH NONCE (a body is ignored), for
    POST and PUT with a body it is METHOD PATH BASE64(JSON(body)) NONCE, PATH
    being what url.parse gives as the path of the full URL (endpoint followed
    by the path argument); the digest is 96 lowercase hexadecimal digits (384
    bits).  For any other method, DELETE included, the signer signs nothing:
    it writes Authentication for METHOD is not implemented on the console,
    does nothing else, and returns undefined. *)
Theorem getHmac_canonical_message (E : Env) (c : Client) (nonce : Z) (method path : string)
    (data : option json) (log : list event) :
  let PATH := url_parse_path E (api c +:+ path) in
  let NONCE := string_of_Z nonce in
  _getHmac E c nonce "GET" path data log =
    (Ret (Some (hmac_sha384_hex (secret c) ("GET" +:+ " " +:+ PATH +:+ " " +:+ NONCE))), log)
  /\ (forall body, method = "POST" \/ method = "PUT" ->
        _getHmac E c nonce method path (Some body) log =
        (Ret (Some (hmac_sha384_hex (secret c)
                      (method +:+ " " +:+ PATH +:+ " " +:+ base64 (JSON_stringify body)
                       +:+ " " +:+ NONCE))), log))
  /\ (method <> "GET" -> method <> "POST" -> method <> "PUT" ->
        _getHmac E c nonce method path data log =
        (Ret None,
         log ++ [EvConsoleError ("Authentication for " +:+ method +:+ " is not implemented")]))
  /\ (forall key message,
        String.length (hmac_sha384_hex key message) = 96%nat /\
        string_forallb is_lower_hex (hmac_sha384_hex key message) = true).
Proof.
  cbv zeta. split; [apply getHmac_GET |].
  split; [intros body Hm; apply getHmac_body, Hm |].
  split; [apply getHmac_unsupported |].
  apply hmac_sha384_hex_shape.
Qed.

Lemma getHmac_canonical_message_witness :
  _getHmac silent_env trader 1500000000000 "PATCH" "/orders/7" None [] =
  (Ret None, [EvConsoleError "Authentication for PATCH is not implemented"]).
Proof.
  apply (proj1 (proj2 (proj2
    (getHmac_canonical_message silent_env trader 1500000000000 "PATCH" "/orders/7" None []))));
    discriminate.
Defined.

(** C1, as stated, fails for a request without body that is not a GET: for
    DELETE the signer produces no keyed hash at all. *)
Lemma getHmac_DELETE_unsigned :
  _getHmac silent_env trader 1500000000000 "DELETE" "/orders/7" None [] =
  (Ret None, [EvConsoleError "Authentication for DELETE is not implemented"]).
Proof. reflexivity. Qed.

(** ** The authentication headers *)

Lemma getAuthHeaders_GET (E : Env) (c : Client) (path : string) (data : option json)
    (log : list event) :
  _getAuthHeaders E c "GET" path data log =
  (Ret (headers c ∪ authHeaders (key c) (now E log)
          (Some (hmac_sha384_hex (secret c)
                   ("GET" +:+ " " +:+ url_parse_path E (_getFullUrl c path) +:+ " "
                    +:+ string_of_Z (now E log))))),
   log ++ [EvNow (now E log)]).
Proof. reflexivity. Qed.

Lemma getAuthHeaders_body (E : Env) (c : Client) (method path : string) (d : json)
    (log : list event) :
  method = "POST" \/ method = "PUT" ->
  _getAuthHeaders E c method path (Some d) log =
  (Ret (headers c ∪ authHeaders (key c) (now E log)
          (Some (hmac_sha384_hex (secret c)
                   (method +:+ " " +:+ url_parse_path E (_getFullUrl c path) +:+ " "
                    +:+ base64 (JSON_stringify d) +:+ " " +:+ string_of_Z (now E log))))),
   log ++ [EvNow (now E log)]).
Proof. intros [-> | ->]; reflexivity. Qed.

Lemma authHeaders_dom (k : string) (t : Z) (sig : option string) :
  dom (authHeaders k t sig) =
  ({["X-SBTC-APIKEY"; "X-SBTC-NONCE"; "X-SBTC-SIGNATURE"]} : gset string).
Proof.
  unfold authHeaders. rewrite !dom_insert_L, dom_empty_L. set_solver.
Qed.

Lemma authHeaders_lookup (k : string) (t : Z) (sig : option string) :
  authHeaders k t sig !! "X-SBTC-APIKEY" = Some (HStr k) /\
  authHeaders k t sig !! "X-SBTC-NONCE" = Some (HNum t) /\
  authHeaders k t sig !! "X-SBTC-SIGNATURE" = Some (signature_header sig).
Proof.
  unfold authHeaders. split; [apply lookup_insert_eq |].
  split; [rewrite lookup_insert_ne by discriminate; apply lookup_insert_eq |].
  rewrite !lookup_insert_ne by discriminate. apply lookup_insert_eq.
Qed.

(** C3 (as amended).  For every authenticated request the clock is read once,
    and the built header set is the three authentication headers, named
    X-SBTC-APIKEY, X-SBTC-NONCE and X-SBTC-SIGNATURE, with every base header
    of the client assigned over them: X-SBTC-NONCE carries that one clock
    reading and X-SBTC-SIGNATURE the signer output computed over the same
    reading; a base header keeps its value, also when it bears the name of an
    authentication header. *)
Theorem getAuthHeaders_merged (E : Env) (c : Client) (method path : string)
    (data : option json) (log : list event) :
  let nonce := now E log in
  let m_get := "GET" +:+ " " +:+ url_parse_path E (_getFullUrl c path) +:+ " " +:+ string_of_Z nonce in
  let m_body body :=
    method +:+ " " +:+ url_parse_path E (_getFullUrl c path) +:+ " " +:+ base64 (JSON_stringify body)
    +:+ " " +:+ string_of_Z nonce in
  _getAuthHeaders E c "GET" path data log =
    (Ret (headers c ∪ authHeaders (key c) nonce (Some (hmac_sha384_hex (secret c) m_get))),
     log ++ [EvNow nonce])
  /\ (forall body, method = "POST" \/ method = "PUT" ->
        _getAuthHeaders E c method path (Some body) log =
        (Ret (headers c ∪ authHeaders (key c) nonce (Some (hmac_sha384_hex (secret c) (m_body body)))),
         log ++ [EvNow nonce]))
  /\ (forall sig,
        let built := headers c ∪ authHeaders (key c) nonce sig in
        dom built = dom (headers c) ∪ {["X-SBTC-APIKEY"; "X-SBTC-NONCE"; "X-SBTC-SIGNATURE"]}
        /\ (forall name v, headers c !! name = Some v -> built !! name = Some v)
        /\ (headers c !! "X-SBTC-APIKEY" = None -> built !! "X-SBTC-APIKEY" = Some (HStr (key c)))
        /\ (headers c !! "X-SBTC-NONCE" = None -> built !! "X-SBTC-NONCE" = Some (HNum nonce))
        /\ (headers c !! "X-SBTC-SIGNATURE" = None ->
            built !! "X-SBTC-SIGNATURE" = Some (signature_header sig))).
Proof.
  cbv zeta. split; [apply getAuthHeaders_GET |].
  split; [intros body Hm; apply getAuthHeaders_body, Hm |].
  intros sig. destruct (authHeaders_lookup (key c) (now E log) sig) as (Hk & Hn & Hs).
  split; [rewrite dom_union_L, authHeaders_dom; reflexivity |].
  split; [intros name v Hv; apply lookup_union_Some_l, Hv |].
  split; [| split]; intros Hnone; rewrite lookup_union_r by exact Hnone; assumption.
Qed.

Lemma getAuthHeaders_merged_witness :
  _getAuthHeaders silent_env trader "POST" "/deposits" (Some (JObj [("amount", JNum 100)])) [] =
  (Ret (headers trader ∪ authHeaders (key trader) 1500000000000
          (Some (hmac_sha384_hex (secret trader)
                   ("POST" +:+ " " +:+ plain_url_path (_getFullUrl trader "/deposits") +:+ " "
                    +:+ base64 (JSON_stringify (JObj [("amount", JNum 100)])) +:+ " "
                    +:+ string_of_Z 1500000000000)))),
   [EvNow 1500000000000]).
Proof.
  apply (proj1 (proj2
    (getAuthHeaders_merged silent_env trader "POST" "/deposits" None [])) (JObj [("amount", JNum 100)])).
  left. reflexivity.
Defined.

(** C3, as stated, fails on the header names: the built set has no header
    named X-API-KEY, X-NONCE or X-SIGNATURE; the key, the nonce and the
    signature travel as X-SBTC-APIKEY, X-SBTC-NONCE and X-SBTC-SIGNATURE. *)
Lemma getAuthHeaders_names :
  match fst (_getAuthHeaders silent_env trader "GET" "/balances" None []) with
  | Ret built =>
      built !! "X-API-KEY" = None /\ built !! "X-NONCE" = None /\ built !! "X-SIGNATURE" = None
      /\ built !! "X-SBTC-APIKEY" = Some (HStr "my-key")
      /\ built !! "X-SBTC-NONCE" = Some (HNum 1500000000000)
      /\ built !! "X-SBTC-SIGNATURE" =
         Some (HStr "fd27075aaeaba3f77e8e453b9a1a05b70eaa77b1a34c2cd360b4fee19c5c4cb0eb3918ec3673e4a5e024bdee1d855a7d")
      /\ size built = 5%nat
  | _ => False
  end.
Proof. vm_compute. repeat split. Qed.

(** ** The guard of the authenticated methods *)

(** C2 (as amended).  On a client whose secret is the empty string every
    authenticated method calls back with the error InvalidRequest:ApiKeyRequired
    in the error position and null as result, and leaves the event log as it
    was: no clock reading, no network I/O.  The one exception by design is
    requestWithdrawal, which tests a BTC target address before the secret and
    then calls back with InvalidRequest:InvalidBitcoinAddress, again without
    any I/O.  (Stated for getExchangeFee called with its callback in fourth
    position and for registerBankAccount with a bank of the table.) *)
Theorem empty_secret_fails_fast (E : Env) (c : Client) (log : list event) :
  secret c = "" ->
  (forall currency, Index.getBalances E c currency log = (Ret (local_failure ApiKeyRequired), log))
  /\ (forall currency, Part002.getBalances E c currency log = (Ret (local_failure ApiKeyRequired), log))
  /\ (forall marketId type flag,
        getExchangeFee E c marketId type (MarketOrder flag) log
        = (Ret (local_failure ApiKeyRequired), log))
  /\ (forall marketId type amount,
        getQuotation E c marketId type amount log = (Ret (local_failure ApiKeyRequired), log))
  /\ (forall marketId type amount,
        getReverseQuotation E c marketId type amount log = (Ret (local_failure ApiKeyRequired), log))
  /\ (forall marketId order,
        createOrder E c marketId order log = (Ret (local_failure ApiKeyRequired), log))
  /\ (forall marketId page,
        getOrdersRaw E c marketId page log = (Ret (local_failure ApiKeyRequired), log))
  /\ (forall orderId, getOrderId E c orderId log = (Ret (local_failure ApiKeyRequired), log))
  /\ (forall orderId, Index.cancelOrderId E c orderId log = (Ret (local_failure ApiKeyRequired), log))
  /\ (forall orderId, Part002.cancelOrderId E c orderId log = (Ret (local_failure ApiKeyRequired), log))
  /\ (forall opts bankId,
        Part002.find_bank (colombiaBanks E) (Part002.bank_name opts) = Some bankId ->
        Part002.registerBankAccount E c opts log = (Ret (local_failure ApiKeyRequired), log))
  /\ (forall opts,
        Part002.requestWithdrawal E c opts log
        = (Ret (local_failure (if address_rejected E c opts
                               then InvalidBitcoinAddress else ApiKeyRequired)), log))
  /\ (forall opts, Part002.registerDeposit E c opts log = (Ret (local_failure ApiKeyRequired), log)).
Proof.
  intros Hsecret.
  repeat match goal with |- _ /\ _ => split end; intros.
  - unfold Index.getBalances. now rewrite Hsecret.
  - unfold Part002.getBalances. now rewrite Hsecret.
  - unfold getExchangeFee. now rewrite Hsecret.
  - unfold getQuotation. now rewrite Hsecret.
  - unfold getReverseQuotation. now rewrite Hsecret.
  - unfold createOrder. now rewrite Hsecret.
  - unfold getOrdersRaw. now rewrite Hsecret.
  - unfold getOrderId. now rewrite Hsecret.
  - unfold Index.cancelOrderId. now rewrite Hsecret.
  - unfold Part002.cancelOrderId. now rewrite Hsecret.
  - unfold Part002.registerBankAccount. rewrite H. now rewrite Hsecret.
  - unfold Part002.requestWithdrawal, address_rejected. rewrite Hsecret.
    destruct (String.eqb (toUpper (Part002.currency opts)) "BTC"); cbn [andb].
    + destruct ((0 <? indexOf (api c) "stg")
                && negb (validate E (Part002.target_address opts) "testnet")
                || (indexOf (api c) "stg" <? 0)
                   && negb (validate E (Part002.target_address opts) "prod")); reflexivity.
    + destruct (String.eqb (toUpper (Part002.currency opts)) "CLP"
                || String.eqb (toUpper (Part002.currency opts)) "COP"); reflexivity.
  - unfold Part002.registerDeposit. now rewrite Hsecret.
Qed.

Lemma empty_secret_fails_fast_witness :
  Part002.registerDeposit silent_env anonymous (Part002.mkDepositOpts (NInt 5) "clp") []
  = (Ret (local_failure ApiKeyRequired), []).
Proof.
  apply (empty_secret_fails_fast silent_env anonymous []). reflexivity.
Defined.

(** C2, as stated, fails for requestWithdrawal: on a client without secret a
    BTC withdrawal to an address that does not validate is answered with
    InvalidRequest:InvalidBitcoinAddress, not with InvalidRequest:ApiKeyRequired. *)
Lemma requestWithdrawal_tests_address_first :
  secret anonymous = "" /\
  Part002.requestWithdrawal silent_env anonymous
    (Part002.mkWithdrawalOpts "btc" "not-an-address" (NInt 1)) []
  = (Ret (Cb (Some (mkEnvelope false (Some "InvalidRequest:InvalidBitcoinAddress") NoBody)) None),
     []).
Proof. split; reflexivity. Qed.

(** ** One authenticated round trip *)

Lemma secret_guard (c : Client) : secret c <> "" -> String.eqb (secret c) "" = false.
Proof. apply String.eqb_neq. Qed.

Lemma end_callback_log (r : http_result) (log : list event) :
  snd (end_callback r log) = log.
Proof. destruct r; reflexivity. Qed.

Lemma getOrderId_run (E : Env) (c : Client) (orderId : Z) (log : list event) :
  secret c <> "" ->
  let rq := signed_get E c ("/orders/" +:+ string_of_Z orderId) log in
  getOrderId E c orderId log =
  end_callback (transport E (log ++ [EvNow (now E log)]) rq)
    (log ++ [EvNow (now E log); EvRequest rq]).
Proof.
  intros Hs rq. unfold getOrderId. rewrite (secret_guard c Hs).
  unfold bind. rewrite getAuthHeaders_GET. unfold http_end, ret.
  rewrite <- app_assoc. reflexivity.
Qed.

Lemma getOrdersRaw_run (E : Env) (c : Client) (marketId : string) (page : Z) (log : list event) :
  secret c <> "" ->
  let path := if page =? 0 then listing_path marketId else page_path marketId page in
  let rq := signed_get E c path log in
  getOrdersRaw E c marketId page log =
  end_callback (transport E (log ++ [EvNow (now E log)]) rq)
    (log ++ [EvNow (now E log); EvRequest rq]).
Proof.
  intros Hs path rq. unfold getOrdersRaw. rewrite (secret_guard c Hs).
  unfold bind. rewrite getAuthHeaders_GET. unfold http_end, ret.
  rewrite <- app_assoc. reflexivity.
Qed.

Lemma requests_of_app (l1 l2 : list event) :
  requests_of (l1 ++ l2) = requests_of l1 ++ requests_of l2.
Proof. unfold requests_of. apply flat_map_app. Qed.

Lemma timeouts_of_app (l1 l2 : list event) :
  timeouts_of (l1 ++ l2) = timeouts_of l1 ++ timeouts_of l2.
Proof. unfold timeouts_of. apply flat_map_app. Qed.

(** ** The order state poller *)

Lemma getOrderState_failed (E : Env) (c : Client) (order : envelope) (status : string)
    (fuel : nat) (log : list event) :
  success order = false ->
  _getOrderState E (S fuel) c order status log = (Ret (Cb None (Some order)), log).
Proof. intros Hf. cbn [_getOrderState]. now rewrite Hf. Qed.

Lemma getOrderState_reached (E : Env) (c : Client) (order : envelope) (o : Order)
    (fuel : nat) (log : list event) :
  env_data order = OrderBody o ->
  _getOrderState E (S fuel) c order (order_state o) log = (Ret (Cb None (Some order)), log).
Proof.
  intros Ho. cbn [_getOrderState]. rewrite Ho, String.eqb_refl. cbn [negb].
  now destruct (success order).
Qed.

Lemma getOrderState_step (E : Env) (c : Client) (order fresh : envelope) (o : Order)
    (status : string) (fuel : nat) (log log' : list event) :
  success order = true ->
  env_data order = OrderBody o ->
  order_state o <> status ->
  getOrderId E c (order_id o) log = (Ret (Cb None (Some fresh)), log') ->
  _getOrderState E (S fuel) c order status log =
  _getOrderState E fuel c fresh status (log' ++ [EvTimeout 500]).
Proof.
  intros Hs Ho Hne Hfetch. cbn [_getOrderState]. rewrite Hs, Ho.
  apply String.eqb_neq in Hne. rewrite Hne. cbn [negb].
  unfold bind at 1. rewrite Hfetch. cbn [cb_error cb_result]. reflexivity.
Qed.

(** C6.  [pollOrderState] calls back at once, without a fetch and without a
    delay, when the envelope it is given is a failure or when the order is
    already in the target state.  Otherwise it fetches the order by its id and,
    the fetch having succeeded, lets 500 milliseconds pass and starts over
    with the fetched envelope.  Hence an order whose first refetch reports the
    target state costs exactly one request and one delay, and the call back is
    the fetched envelope in the result position. *)
Theorem pollOrderState_protocol (E : Env) (c : Client) (order : envelope) (status : string)
    (fuel : nat) (log : list event) :
  (success order = false ->
     pollOrderState E (S fuel) c order status log = (Ret (Cb None (Some order)), log))
  /\ (forall o, env_data order = OrderBody o -> order_state o = status ->
        pollOrderState E (S fuel) c order status log = (Ret (Cb None (Some order)), log))
  /\ (forall o fresh log',
        success order = true -> env_data order = OrderBody o -> order_state o <> status ->
        getOrderId E c (order_id o) log = (Ret (Cb None (Some fresh)), log') ->
        pollOrderState E (S fuel) c order status log
        = pollOrderState E fuel c fresh status (log' ++ [EvTimeout 500]))
  /\ (forall o o',
        secret c <> "" ->
        success order = true -> env_data order = OrderBody o -> order_state o <> status ->
        answers E (order_url c (order_id o)) (HttpOk (OrderBody o')) ->
        order_state o' = status ->
        let rq := signed_get E c ("/orders/" +:+ string_of_Z (order_id o)) log in
        let final := log ++ [EvNow (now E log); EvRequest rq; EvTimeout 500] in
        pollOrderState E (S (S fuel)) c order status log
        = (Ret (Cb None (Some (mkEnvelope true None (OrderBody o')))), final)
        /\ requests_of final = requests_of log ++ [rq]
        /\ timeouts_of final = timeouts_of log ++ [500]).
Proof.
  unfold pollOrderState. split; [apply getOrderState_failed |].
  split; [intros o Ho <-; now apply getOrderState_reached |].
  split; [intros o fresh log' Hs Ho Hne Hfetch; now apply getOrderState_step with (o := o) |].
  intros o o' Hsecret Hs Ho Hne Hanswers Hreached.
  set (rq := signed_get E c _ log).
  set (final := log ++ _).
  split; [| split].
  - rewrite (getOrderState_step E c order (mkEnvelope true None (OrderBody o')) o status (S fuel) log
               (log ++ [EvNow (now E log); EvRequest rq])); try assumption.
    + subst status. rewrite getOrderState_reached by reflexivity.
      unfold final. rewrite <- app_assoc. reflexivity.
    + rewrite getOrderId_run by assumption. fold rq.
      rewrite (Hanswers _ rq) by reflexivity. reflexivity.
  - unfold final. rewrite requests_of_app. reflexivity.
  - unfold final. rewrite timeouts_of_app. reflexivity.
Qed.

Lemma pollOrderState_protocol_witness :
  pollOrderState traded_env 2 trader pending_order "traded" []
  = (Ret (Cb None (Some (mkEnvelope true None (OrderBody (mkOrder 42 "traded"))))),
     [EvNow (now traded_env []);
      EvRequest (signed_get traded_env trader ("/orders/" +:+ string_of_Z 42) []);
      EvTimeout 500]).
Proof.
  apply (proj2 (proj2 (proj2
    (pollOrderState_protocol traded_env trader pending_order "traded" 0 [])))
    (mkOrder 42 "pending") (mkOrder 42 "traded")).
  - discriminate.
  - reflexivity.
  - reflexivity.
  - discriminate.
  - intros log rq Hurl. reflexivity.
  - reflexivity.
Defined.

(** C10.  Given an envelope whose success field is false, [pollOrderState]
    (through [_getOrderState]) invokes the callback as (null, envelope): the
    error argument is null and the failed envelope arrives in the result
    position, without any fetch or delay. *)
Theorem pollOrderState_failure_as_result (E : Env) (c : Client) (order : envelope)
    (status : string) (fuel : nat) (log : list event) :
  success order = false ->
  pollOrderState E (S fuel) c order status log = (Ret (Cb None (Some order)), log)
  /\ _getOrderState E (S fuel) c order status log = (Ret (Cb None (Some order)), log).
Proof.
  intros Hf. split; apply getOrderState_failed, Hf.
Qed.

Lemma pollOrderState_failure_as_result_witness :
  pollOrderState silent_env 1 trader failed_order "traded" []
  = (Ret (Cb None (Some failed_order)), []).
Proof.
  apply (pollOrderState_failure_as_result silent_env trader failed_order "traded" 0 []).
  reflexivity.
Defined.

(** ** Canceling an order *)

Lemma Index_cancelOrderId_run (E : Env) (c : Client) (orderId : Z) (log : list event) :
  secret c <> "" ->
  let nonce := now E log in
  let message :=
    "GET" +:+ " " +:+ url_parse_path E (order_url c orderId) +:+ " " +:+ string_of_Z nonce in
  let rq := mkRequest "PUT" (order_url c orderId)
              (headers c ∪ authHeaders (key c) nonce (Some (hmac_sha384_hex (secret c) message)))
              (Some cancel_body) in
  Index.cancelOrderId E c orderId log =
  match transport E (log ++ [EvNow nonce]) rq with
  | HttpNoResponse =>
      (Throw "TypeError: Cannot read property 'error' of undefined",
       log ++ [EvNow nonce; EvRequest rq])
  | HttpError kind details =>
      (Ret (Cb (Some (mkEnvelope false kind (OtherBody details))) None),
       log ++ [EvNow nonce; EvRequest rq])
  | HttpOk (OrderBody o) =>
      (Ret (if negb (String.eqb (order_state o) "canceling")
               && negb (String.eqb (order_state o) "canceled")
            then Cb (Some (mkEnvelope false (Some "order_not_valid_for_canceling") (OrderBody o))) None
            else Cb None (Some (mkEnvelope true None (OrderBody o)))),
       log ++ [EvNow nonce; EvRequest rq])
  | HttpOk _ =>
      (Throw "TypeError: response.json.order is undefined", log ++ [EvNow nonce; EvRequest rq])
  end.
Proof.
  intros Hs nonce message rq. unfold Index.cancelOrderId. rewrite (secret_guard c Hs).
  unfold bind. rewrite getAuthHeaders_GET. unfold http_end.
  fold nonce. fold (order_url c orderId). fold message. fold cancel_body. fold rq.
  rewrite <- app_assoc. cbn [app].
  destruct (transport E (log ++ [EvNow nonce]) rq) as [| kind details | [o | os m | j |]];
    try reflexivity.
  cbn [responseHandler_success env_data].
  destruct (negb (String.eqb (order_state o) "canceling")
            && negb (String.eqb (order_state o) "canceled")); reflexivity.
Qed.

Lemma Part002_cancelOrderId_run (E : Env) (c : Client) (orderId : Z) (log : list event) :
  secret c <> "" ->
  let nonce := now E log in
  let message :=
    "PUT" +:+ " " +:+ url_parse_path E (order_url c orderId) +:+ " "
    +:+ base64 (JSON_stringify cancel_body) +:+ " " +:+ string_of_Z nonce in
  let rq := mkRequest "PUT" (order_url c orderId)
              (headers c ∪ authHeaders (key c) nonce (Some (hmac_sha384_hex (secret c) message)))
              (Some cancel_body) in
  Part002.cancelOrderId E c orderId log =
  match transport E (log ++ [EvNow nonce]) rq with
  | HttpNoResponse =>
      (Throw "TypeError: Cannot read property 'error' of undefined",
       log ++ [EvNow nonce; EvRequest rq])
  | HttpError kind details =>
      (Ret (Cb (Some (mkEnvelope false kind (OtherBody details))) None),
       log ++ [EvNow nonce; EvRequest rq])
  | HttpOk (OrderBody o) =>
      (Ret (if negb (String.eqb (order_state o) "canceling")
               && negb (String.eqb (order_state o) "canceled")
            then Cb (Some (mkEnvelope false (Some "order_not_valid_for_canceling") (OrderBody o))) None
            else Cb None (Some (mkEnvelope true None (OrderBody o)))),
       log ++ [EvNow nonce; EvRequest rq])
  | HttpOk _ =>
      (Throw "TypeError: response.json.order is undefined", log ++ [EvNow nonce; EvRequest rq])
  end.
Proof.
  intros Hs nonce message rq. unfold Part002.cancelOrderId. rewrite (secret_guard c Hs).
  unfold bind. rewrite getAuthHeaders_body by (right; reflexivity). unfold http_end.
  fold nonce. fold (order_url c orderId). fold cancel_body. fold message. fold rq.
  rewrite <- app_assoc. cbn [app].
  destruct (transport E (log ++ [EvNow nonce]) rq) as [| kind details | [o | os m | j |]];
    try reflexivity.
  cbn [responseHandler_success env_data].
  destruct (negb (String.eqb (order_state o) "canceling")
            && negb (String.eqb (order_state o) "canceled")); reflexivity.
Qed.



Lemma append_first_char (a b : ascii) (s t : string) :
  a <> b -> String a s <> String b t.
Proof. intros Hab Heq. apply Hab. now inversion Heq. Qed.

(** X21.  For every order id and nonce, [cancelOrderId] of src/index.js
    dispatches a PUT carrying the body state: canceling, and signs the GET-shaped
    message GET PATH NONCE, without the body; [cancelOrderId] of
    src/unnamed/part_002 dispatches the same PUT, with the same body and the
    same nonce, and signs the PUT-shaped message PUT PATH BASE64(JSON(body))
    NONCE.  Each revision issues this one request whatever the exchange
    answers, and the two signed messages differ for all inputs. *)
Theorem cancelOrderId_signed_messages (E : Env) (c : Client) (orderId : Z) (log : list event) :
  secret c <> "" ->
  let nonce := now E log in
  let PATH := url_parse_path E (api c +:+ "/orders/" +:+ string_of_Z orderId) in
  let get_message := "GET" +:+ " " +:+ PATH +:+ " " +:+ string_of_Z nonce in
  let put_message :=
    "PUT" +:+ " " +:+ PATH +:+ " " +:+ base64 (JSON_stringify cancel_body) +:+ " "
    +:+ string_of_Z nonce in
  let request_signed message :=
    mkRequest "PUT" (api c +:+ "/orders/" +:+ string_of_Z orderId)
      (headers c ∪ authHeaders (key c) nonce (Some (hmac_sha384_hex (secret c) message)))
      (Some cancel_body) in
  snd (Index.cancelOrderId E c orderId log)
    = log ++ [EvNow nonce; EvRequest (request_signed get_message)]
  /\ snd (Part002.cancelOrderId E c orderId log)
    = log ++ [EvNow nonce; EvRequest (request_signed put_message)]
  /\ get_message <> put_message.
Proof.
  intros Hs nonce PATH get_message put_message request_signed.
  split; [| split].
  - rewrite Index_cancelOrderId_run by assumption.
    fold nonce. unfold order_url, _getFullUrl. fold PATH. fold get_message.
    destruct (transport E _ _) as [| kind details | [o | os m | j |]]; reflexivity.
  - rewrite Part002_cancelOrderId_run by assumption.
    fold nonce. unfold order_url, _getFullUrl. fold PATH. fold put_message.
    destruct (transport E _ _) as [| kind details | [o | os m | j |]]; reflexivity.
  - apply append_first_char. discriminate.
Qed.

Lemma cancelOrderId_signed_messages_witness :
  snd (Index.cancelOrderId filled_env trader 42 [])
  = [] ++ [EvNow 1500000000000;
           EvRequest
             (mkRequest "PUT" "https://www.surbtc.com/api/v2/orders/42"
                (headers trader ∪ authHeaders "my-key" 1500000000000
                   (Some (hmac_sha384_hex "my-secret"
                            ("GET" +:+ " " +:+ "/api/v2/orders/42" +:+ " " +:+ "1500000000000"))))
                (Some cancel_body))].
Proof.
  apply (proj1 (cancelOrderId_signed_messages filled_env trader 42 [] ltac:(discriminate))).
Defined.

(** The two signatures of one cancellation (order 42, key my-secret, nonce
    1500000000000) evaluate to different digests. *)
Example cancelOrderId_digests_of_order_42 :
  hmac_sha384_hex "my-secret"
    ("GET" +:+ " " +:+ "/api/v2/orders/42" +:+ " " +:+ "1500000000000")
  <> hmac_sha384_hex "my-secret"
       ("PUT" +:+ " " +:+ "/api/v2/orders/42" +:+ " " +:+ base64 (JSON_stringify cancel_body)
        +:+ " " +:+ "1500000000000").
Proof. vm_compute. discriminate. Qed.

(** ** The order pager *)

Lemma filter_idem {A} (p : A -> bool) (l : list A) : List.filter p (List.filter p l) = List.filter p l.
Proof.
  induction l as [| x l IH]; [reflexivity |].
  cbn [List.filter]. destruct (p x) eqn:Hx; [| exact IH].
  cbn [List.filter]. now rewrite Hx, IH.
Qed.

Lemma keep_idem (state : option string) (l : list Order) :
  keep state (keep state l) = keep state l.
Proof. unfold keep. destruct (truthy_state state); [apply filter_idem | reflexivity]. Qed.

Lemma keep_app (state : option string) (a b : list Order) :
  keep state (a ++ b) = keep state a ++ keep state b.
Proof. unfold keep. destruct (truthy_state state); [apply List.filter_app | reflexivity]. Qed.

Lemma keep_absorb (state : option string) (rest : list (list Order)) (acc : list Order) :
  keep state (absorb state acc rest) = keep state (acc ++ concat rest).
Proof.
  revert acc. induction rest as [| os rest IH]; intros acc.
  - cbn [absorb fold_left concat]. now rewrite app_nil_r.
  - cbn [absorb fold_left concat]. fold (absorb state (keep state acc ++ os) rest).
    rewrite IH, !keep_app, keep_idem, app_assoc. reflexivity.
Qed.

Lemma getOrderPages_step (E : Env) (c : Client) (marketId : string) (state : option string)
    (acc os : list Order) (m : Meta) (p total : Z) (tc : option Z) (et : option string)
    (fuel : nat) (log : list event) :
  secret c <> "" -> 0 <= p -> p < total ->
  answers E (_getFullUrl c (page_path marketId (Z.succ p))) (HttpOk (OrdersBody os m)) ->
  _getOrderPages E (S fuel) c (listing et acc p total tc) marketId state log
  = _getOrderPages E fuel c (listing et (keep state acc ++ os) (Z.succ p) total tc) marketId state
      (log ++ [EvNow (now E log); EvRequest (signed_get E c (page_path marketId (Z.succ p)) log)]).
Proof.
  intros Hs Hp Hlt Hanswers.
  cbn [_getOrderPages listing env_data success error_type current_page total_pages total_count
       num_eq num_lt andb].
  replace (p =? total) with false by (symmetry; apply Z.eqb_neq; lia).
  rewrite andb_false_r.
  cbn [_getOrderPages listing env_data success error_type current_page total_pages total_count
       num_eq num_lt andb].
  replace (p <? total) with true by (symmetry; apply Z.ltb_lt; lia).
  unfold bind at 1. rewrite getOrdersRaw_run by assumption.
  replace (Z.succ p =? 0) with false by (symmetry; apply Z.eqb_neq; lia).
  rewrite (Hanswers _ (signed_get E c (page_path marketId (Z.succ p)) log)) by reflexivity.
  cbn [end_callback ret cb_error cb_result responseHandler_success env_data].
  reflexivity.
Qed.

Lemma getOrderPages_fetch_fails (E : Env) (c : Client) (marketId : string)
    (state : option string) (acc : list Order) (p total : Z) (tc : option Z)
    (et kind : option string) (details : json) (fuel : nat) (log : list event) :
  secret c <> "" -> 0 <= p -> p < total ->
  answers E (_getFullUrl c (page_path marketId (Z.succ p))) (HttpError kind details) ->
  _getOrderPages E (S fuel) c (listing et acc p total tc) marketId state log
  = (Ret (Cb (Some (mkEnvelope false kind (OtherBody details))) None),
     log ++ [EvNow (now E log); EvRequest (signed_get E c (page_path marketId (Z.succ p)) log)]).
Proof.
  intros Hs Hp Hlt Hanswers.
  cbn [_getOrderPages listing env_data success error_type current_page total_pages total_count
       num_eq num_lt andb].
  replace (p =? total) with false by (symmetry; apply Z.eqb_neq; lia).
  rewrite andb_false_r.
  cbn [_getOrderPages listing env_data success error_type current_page total_pages total_count
       num_eq num_lt andb].
  replace (p <? total) with true by (symmetry; apply Z.ltb_lt; lia).
  unfold bind at 1. rewrite getOrdersRaw_run by assumption.
  replace (Z.succ p =? 0) with false by (symmetry; apply Z.eqb_neq; lia).
  rewrite (Hanswers _ (signed_get E c (page_path marketId (Z.succ p)) log)) by reflexivity.
  reflexivity.
Qed.

Lemma getOrderPages_done (E : Env) (c : Client) (marketId : string) (state : option string)
    (os : list Order) (p total : Z) (tc : option Z) (et : option string)
    (fuel : nat) (log : list event) :
  total <= p ->
  _getOrderPages E (S fuel) c (listing et os p total tc) marketId state log
  = (Ret (Cb None (Some (mkEnvelope true et
             (OrdersBody (keep state os)
                (if truthy_state state && (p =? total)
                 then mkMeta None None (Some (Z.of_nat (length (keep state os))))
                 else mkMeta (Some p) (Some total) tc))))),
     log).
Proof.
  intros Hle.
  cbn [_getOrderPages listing env_data success error_type current_page total_pages total_count
       num_eq num_lt andb].
  unfold keep.
  destruct (truthy_state state); cbn [andb].
  - destruct (p =? total); cbn [total_pages]; [reflexivity |].
    replace (p <? total) with false by (symmetry; apply Z.ltb_ge; lia). reflexivity.
  - cbn [total_pages].
    replace (p <? total) with false by (symmetry; apply Z.ltb_ge; lia). reflexivity.
Qed.

Lemma getOrderPages_prefix (E : Env) (c : Client) (marketId : string) (state : option string)
    (total : Z) (tc : option Z) (et : option string) (fuel : nat) :
  secret c <> "" ->
  forall (rest : list (list Order)) (acc : list Order) (p : Z) (log : list event),
    0 <= p -> p + Z.of_nat (length rest) <= total ->
    serves_pages E c marketId (Z.succ p) rest ->
    exists log',
      _getOrderPages E (length rest + fuel) c (listing et acc p total tc) marketId state log
      = _getOrderPages E fuel c
          (listing et (absorb state acc rest) (p + Z.of_nat (length rest)) total tc)
          marketId state log'
      /\ map req_url (requests_of log')
         = map req_url (requests_of log) ++ page_urls c marketId (Z.succ p) (length rest)
      /\ timeouts_of log' = timeouts_of log.
Proof.
  intros Hs. induction rest as [| os rest IH]; intros acc p log Hp Hbound Hserved.
  - exists log. cbn [length Nat.add absorb fold_left page_urls Z.of_nat].
    rewrite Z.add_0_r, app_nil_r. repeat split.
  - destruct Hserved as [[m Hanswers] Hrest].
    cbn [length] in Hbound. rewrite Nat2Z.inj_succ in Hbound.
    destruct (IH (keep state acc ++ os) (Z.succ p)
                (log ++ [EvNow (now E log);
                         EvRequest (signed_get E c (page_path marketId (Z.succ p)) log)]))
      as (log' & Hrun & Hurls & Htimeouts); [lia | lia | exact Hrest |].
    exists log'. split; [| split].
    + cbn [length Nat.add]. rewrite (getOrderPages_step E c marketId state acc os m) by (assumption || lia).
      rewrite Hrun. cbn [absorb fold_left]. fold (absorb state (keep state acc ++ os) rest).
      rewrite Nat2Z.inj_succ.
      replace (Z.succ p + Z.of_nat (length rest)) with (p + Z.succ (Z.of_nat (length rest))) by lia.
      reflexivity.
    + rewrite Hurls, requests_of_app, map_app, <- app_assoc. reflexivity.
    + rewrite Htimeouts, timeouts_of_app. cbn. apply app_nil_r.
Qed.

Lemma pollOrders_collects (E : Env) (c : Client) (marketId : string) (state : option string)
    (first : list Order) (rest : list (list Order)) (tc : option Z) (et : option string)
    (fuel : nat) (log : list event) :
  secret c <> "" ->
  serves_pages E c marketId 2 rest ->
  (length rest < fuel)%nat ->
  let N := Z.of_nat (S (length rest)) in
  let kept := keep state (first ++ concat rest) in
  exists log',
    pollOrders E fuel c (listing et first 1 N tc) marketId state log
    = (Ret (Cb None (Some (mkEnvelope true et
               (OrdersBody kept
                  (if truthy_state state
                   then mkMeta None None (Some (Z.of_nat (length kept)))
                   else mkMeta (Some N) (Some N) tc))))),
       log')
    /\ map req_url (requests_of log')
       = map req_url (requests_of log) ++ page_urls c marketId 2 (length rest)
    /\ timeouts_of log' = timeouts_of log.
Proof.
  intros Hs Hserved Hfuel N kept.
  destruct (getOrderPages_prefix E c marketId state N tc et (fuel - length rest) Hs
              rest first 1 log) as (log' & Hrun & Hurls & Htimeouts);
    [lia | unfold N; lia | exact Hserved |].
  exists log'. split; [| split; assumption].
  unfold pollOrders.
  replace fuel with (length rest + (fuel - length rest))%nat at 1 by lia.
  rewrite Hrun.
  destruct (fuel - length rest)%nat as [| f] eqn:Hf; [lia |].
  rewrite getOrderPages_done by (unfold N; lia).
  replace (1 + Z.of_nat (length rest)) with N by (unfold N; lia).
  rewrite Z.eqb_refl, andb_true_r, keep_absorb. reflexivity.
Qed.

(** C4 (as amended).  For every listing of N pages (N at least 1) whose first
    page reports current_page = 1 and total_pages = N, and whose every page
    fetch succeeds, [getOrders] issues exactly N page requests (the listing
    without page parameter, then the pages 2 to N) and returns the
    concatenation of all pages' orders in their original order, under the meta
    of the first page with current_page advanced to N; [getOrdersByState] with
    a non-empty state issues the same N requests and returns exactly the
    orders whose state equals the filter, with a meta that holds nothing but
    total_count, the number of these orders. *)
Theorem getOrders_collects_all_pages (E : Env) (c : Client) (marketId : string)
    (first : list Order) (rest : list (list Order)) (tc : option Z)
    (fuel : nat) (log : list event) :
  secret c <> "" ->
  let pages := first :: rest in
  let N := Z.of_nat (length pages) in
  answers E (_getFullUrl c (listing_path marketId))
    (HttpOk (OrdersBody first (mkMeta (Some 1) (Some N) tc))) ->
  serves_pages E c marketId 2 rest ->
  (length pages <= fuel)%nat ->
  (exists log',
     getOrders E fuel c marketId log
     = (Ret (Cb None (Some (mkEnvelope true None
                (OrdersBody (concat pages) (mkMeta (Some N) (Some N) tc))))), log')
     /\ map req_url (requests_of log')
        = map req_url (requests_of log)
          ++ _getFullUrl c (listing_path marketId) :: page_urls c marketId 2 (length rest)
     /\ length (requests_of log') = (length (requests_of log) + length pages)%nat)
  /\ (forall state, state <> "" ->
      let matching := List.filter (fun o => String.eqb (order_state o) state) (concat pages) in
      exists log',
        getOrdersByState E fuel c marketId state log
        = (Ret (Cb None (Some (mkEnvelope true None
                   (OrdersBody matching
                      (mkMeta None None (Some (Z.of_nat (length matching)))))))), log')
        /\ length (requests_of log') = (length (requests_of log) + length pages)%nat).
Proof.
  intros Hs pages N Hfirst Hserved Hfuel.
  subst N pages. cbn [length] in *.
  assert (Hcount : forall (l l' : list event) (url : string) (urls : list string),
             map req_url (requests_of l') = map req_url (requests_of l) ++ url :: urls ->
             length urls = length rest ->
             length (requests_of l') = (length (requests_of l) + S (length rest))%nat).
  { intros l l' url urls Hmap Hlen.
    rewrite <- (length_map req_url (requests_of l')), Hmap, length_app, length_map.
    cbn [length]. rewrite Hlen. reflexivity. }
  assert (Hpage_urls : forall k n, length (page_urls c marketId k n) = n).
  { intros k n. revert k. induction n as [| n IH]; intros k; cbn; [reflexivity | now rewrite IH]. }
  assert (Hstart : forall state,
             waterfall (getOrdersRaw E c marketId 0)
               (fun orders => pollOrders E fuel c orders marketId state) log
             = pollOrders E fuel c (listing None first 1 (Z.of_nat (S (length rest))) tc) marketId state
                 (log ++ [EvNow (now E log);
                          EvRequest (signed_get E c (listing_path marketId) log)])).
  { intros state. unfold waterfall, bind. rewrite getOrdersRaw_run by assumption.
    cbn [Z.eqb]. rewrite (Hfirst _ (signed_get E c (listing_path marketId) log)) by reflexivity.
    reflexivity. }
  split.
  - destruct (pollOrders_collects E c marketId None first rest tc None fuel
                (log ++ [EvNow (now E log);
                         EvRequest (signed_get E c (listing_path marketId) log)])
                Hs Hserved) as (log' & Hrun & Hurls & _); [lia |].
    exists log'. unfold getOrders. rewrite Hstart, Hrun.
    assert (Hall : map req_url (requests_of log')
                   = map req_url (requests_of log)
                     ++ _getFullUrl c (listing_path marketId)
                        :: page_urls c marketId 2 (length rest)).
    { rewrite Hurls, requests_of_app, map_app, <- app_assoc. reflexivity. }
    split; [reflexivity | split; [exact Hall |]].
    apply (Hcount log log' _ _ Hall), Hpage_urls.
  - intros state Hstate.
    destruct (pollOrders_collects E c marketId (Some state) first rest tc None fuel
                (log ++ [EvNow (now E log);
                         EvRequest (signed_get E c (listing_path marketId) log)])
                Hs Hserved) as (log' & Hrun & Hurls & _); [lia |].
    exists log'. unfold getOrdersByState. rewrite Hstart, Hrun.
    assert (Htruthy : truthy_state (Some state) = true).
    { unfold truthy_state, truthy_string. apply String.eqb_neq in Hstate. now rewrite Hstate. }
    unfold keep. rewrite Htruthy. split; [reflexivity |].
    apply (Hcount log log' (_getFullUrl c (listing_path marketId))
             (page_urls c marketId 2 (length rest))); [| apply Hpage_urls].
    rewrite Hurls, requests_of_app, map_app, <- app_assoc. reflexivity.
Qed.

Lemma getOrders_collects_all_pages_witness :
  exists log',
    getOrders (env_with one_based_listing) 3 trader "btc-clp" []
    = (Ret (Cb None (Some (mkEnvelope true None
               (OrdersBody (concat [page_a; page_b; page_c])
                  (mkMeta (Some 3) (Some 3) (Some 5)))))), log')
    /\ map req_url (requests_of log')
       = map req_url (requests_of [])
         ++ _getFullUrl trader (listing_path "btc-clp") :: page_urls trader "btc-clp" 2 2
    /\ length (requests_of log') = (length (requests_of []) + 3)%nat.
Proof.
  apply (proj1 (getOrders_collects_all_pages (env_with one_based_listing) trader "btc-clp"
                  page_a [page_b; page_c] (Some 5) 3 []
                  ltac:(discriminate)
                  ltac:(intros log rq Hurl; cbn [transport env_with]; unfold one_based_listing;
                        rewrite Hurl; reflexivity)
                  ltac:(repeat split;
                        eexists; intros log rq Hurl; cbn [transport env_with];
                        unfold one_based_listing; rewrite Hurl; reflexivity)
                  ltac:(cbn; lia))).
Defined.

(** C4, as stated, fails on a listing whose pages are numbered from 0: with
    total_pages = 3 and the first page reporting current_page = 0 the pager
    asks for the pages 1, 2 and 3 after the first request, four requests in
    all. *)
Lemma getOrders_zero_based_listing :
  map req_url (requests_of (snd (getOrders (env_with zero_based_listing) 10 trader "btc-clp" [])))
  = [btc_clp_orders; btc_clp_orders +:+ "?page=1"; btc_clp_orders +:+ "?page=2";
     btc_clp_orders +:+ "?page=3"]
  /\ length (requests_of (snd (getOrders (env_with zero_based_listing) 10 trader "btc-clp" [])))
     = 4%nat
  /\ fst (getOrders (env_with zero_based_listing) 10 trader "btc-clp" [])
     = Ret (Cb None (Some (mkEnvelope true None
              (OrdersBody (page_a ++ page_b ++ page_c) (mkMeta (Some 3) (Some 3) (Some 5)))))).
Proof. vm_compute. repeat split. Qed.

Lemma page_urls_last (c : Client) (marketId : string) (n : nat) (k : Z) :
  page_urls c marketId k (S n)
  = page_urls c marketId k n ++ [_getFullUrl c (page_path marketId (k + Z.of_nat n))].
Proof.
  revert k. induction n as [| n IH]; intros k.
  - cbn [page_urls app Z.of_nat]. now rewrite Z.add_0_r.
  - change (page_urls c marketId k (S (S n)))
      with (_getFullUrl c (page_path marketId k) :: page_urls c marketId (Z.succ k) (S n)).
    rewrite IH. cbn [page_urls app]. rewrite Nat2Z.inj_succ.
    replace (Z.succ k + Z.of_nat n) with (k + Z.succ (Z.of_nat n)) by lia.
    reflexivity.
Qed.

Lemma getOrderPages_last_page (E : Env) (c : Client) (marketId : string)
    (state : option string) (orders : envelope) (os : list Order) (p total : Z)
    (tc : option Z) (fuel : nat) (log : list event) :
  env_data orders = OrdersBody os (mkMeta (Some p) (Some total) tc) ->
  total <= p ->
  let filtering := success orders && truthy_state state in
  let kept := if filtering then List.filter (has_state state) os else os in
  let meta :=
    if filtering && (p =? total)
    then mkMeta None None (Some (Z.of_nat (length kept)))
    else mkMeta (Some p) (Some total) tc in
  _getOrderPages E (S fuel) c orders marketId state log
  = (Ret (Cb None (Some (mkEnvelope (success orders) (error_type orders) (OrdersBody kept meta)))),
     log).
Proof.
  intros Hdata Hle. cbv zeta. cbn [_getOrderPages]. rewrite Hdata.
  cbn [current_page total_pages num_eq num_lt].
  destruct (success orders && truthy_state state); cbn [andb].
  - destruct (p =? total); cbn [total_pages].
    + now rewrite andb_false_r.
    + replace (p <? total) with false by (symmetry; apply Z.ltb_ge; lia).
      now rewrite andb_false_r.
  - cbn [total_pages].
    replace (p <? total) with false by (symmetry; apply Z.ltb_ge; lia).
    now rewrite andb_false_r.
Qed.

(** X20.  The pager stops, without a further request, as soon as
    current_page >= total_pages.  It also stops at the first page fetch that
    the exchange answers with an error response: whatever was accumulated
    from the pages fetched before, the call back is (error, null) with the
    error of that answer, the failed page has been requested once, and
    nothing is requested after it; the same holds when the first fetch of
    [getOrders] is answered with an error response. *)
Theorem getOrderPages_stops (E : Env) (c : Client) (marketId : string) (state : option string)
    (fuel : nat) (log : list event) :
  (forall orders os p total tc,
     env_data orders = OrdersBody os (mkMeta (Some p) (Some total) tc) ->
     total <= p ->
     let filtering := success orders && truthy_state state in
     let kept := if filtering then List.filter (has_state state) os else os in
     let meta :=
       if filtering && (p =? total)
       then mkMeta None None (Some (Z.of_nat (length kept)))
       else mkMeta (Some p) (Some total) tc in
     _getOrderPages E (S fuel) c orders marketId state log
     = (Ret (Cb None (Some (mkEnvelope (success orders) (error_type orders)
                              (OrdersBody kept meta)))), log))
  /\ (forall rest acc p total tc et kind details,
        secret c <> "" -> 0 <= p -> p + Z.of_nat (length rest) < total ->
        serves_pages E c marketId (Z.succ p) rest ->
        answers E (_getFullUrl c (page_path marketId (Z.succ p + Z.of_nat (length rest))))
          (HttpError kind details) ->
        exists log',
          _getOrderPages E (length rest + S fuel) c (listing et acc p total tc) marketId state log
          = (Ret (Cb (Some (mkEnvelope false kind (OtherBody details))) None), log')
          /\ map req_url (requests_of log')
             = map req_url (requests_of log) ++ page_urls c marketId (Z.succ p) (S (length rest)))
  /\ (forall kind details,
        secret c <> "" ->
        answers E (_getFullUrl c (listing_path marketId)) (HttpError kind details) ->
        getOrders E fuel c marketId log
        = (Ret (Cb (Some (mkEnvelope false kind (OtherBody details))) None),
           log ++ [EvNow (now E log); EvRequest (signed_get E c (listing_path marketId) log)])).
Proof.
  split; [| split].
  - intros orders os p total tc Hdata Hle.
    now apply getOrderPages_last_page.
  - intros rest acc p total tc et kind details Hs Hp Hbound Hserved Hfails.
    destruct (getOrderPages_prefix E c marketId state total tc et (S fuel) Hs rest acc p log)
      as (log1 & Hrun & Hurls & _); [lia | lia | exact Hserved |].
    exists (log1 ++ [EvNow (now E log1);
                     EvRequest (signed_get E c
                        (page_path marketId (Z.succ (p + Z.of_nat (length rest)))) log1)]).
    replace (Z.succ p + Z.of_nat (length rest)) with (Z.succ (p + Z.of_nat (length rest)))
      in Hfails by lia.
    split.
    + rewrite Hrun. apply getOrderPages_fetch_fails; (assumption || lia).
    + rewrite requests_of_app, map_app, Hurls, page_urls_last, <- app_assoc.
      replace (Z.succ p + Z.of_nat (length rest)) with (Z.succ (p + Z.of_nat (length rest))) by lia.
      reflexivity.
  - intros kind details Hs Hfails.
    unfold getOrders, waterfall, bind. rewrite getOrdersRaw_run by assumption.
    cbn [Z.eqb]. rewrite (Hfails _ (signed_get E c (listing_path marketId) log)) by reflexivity.
    reflexivity.
Qed.

Lemma getOrderPages_stops_witness :
  exists log',
    _getOrderPages (env_with broken_listing) 3 trader (listing None page_a 1 3 (Some 5))
      "btc-clp" None []
    = (Ret (Cb (Some (mkEnvelope false (Some "server_error") (OtherBody JNull))) None), log')
    /\ map req_url (requests_of log')
       = map req_url (requests_of []) ++ page_urls trader "btc-clp" 2 2.
Proof.
  apply (proj1 (proj2 (getOrderPages_stops (env_with broken_listing) trader "btc-clp" None 1 []))
           [page_b] page_a 1 3 (Some 5) None (Some "server_error") JNull).
  - discriminate.
  - lia.
  - cbn. lia.
  - split; [| exact I].
    eexists. intros log rq Hurl. cbn [transport env_with].
    unfold broken_listing, one_based_listing. rewrite Hurl. reflexivity.
  - intros log rq Hurl. cbn [transport env_with].
    unfold broken_listing. rewrite Hurl. reflexivity.
Defined.

Lemma getOrderPages_fetch_unanswered (E : Env) (c : Client) (marketId : string)
    (state : option string) (acc : list Order) (p total : Z) (tc : option Z)
    (et : option string) (fuel : nat) (log : list event) :
  secret c <> "" -> 0 <= p -> p < total ->
  answers E (_getFullUrl c (page_path marketId (Z.succ p))) HttpNoResponse ->
  _getOrderPages E (S fuel) c (listing et acc p total tc) marketId state log
  = (Throw "TypeError: Cannot read property 'error' of undefined",
     log ++ [EvNow (now E log); EvRequest (signed_get E c (page_path marketId (Z.succ p)) log)]).
Proof.
  intros Hs Hp Hlt Hanswers.
  cbn [_getOrderPages listing env_data success error_type current_page total_pages total_count
       num_eq num_lt andb].
  replace (p =? total) with false by (symmetry; apply Z.eqb_neq; lia).
  rewrite andb_false_r.
  cbn [_getOrderPages listing env_data success error_type current_page total_pages total_count
       num_eq num_lt andb].
  replace (p <? total) with true by (symmetry; apply Z.ltb_lt; lia).
  unfold bind at 1. rewrite getOrdersRaw_run by assumption.
  replace (Z.succ p =? 0) with false by (symmetry; apply Z.eqb_neq; lia).
  rewrite (Hanswers _ (signed_get E c (page_path marketId (Z.succ p)) log)) by reflexivity.
  reflexivity.
Qed.

(** C5 at its failing input.  The listing has three pages; the second is
    served and the request for the third fails without a response.  The
    handler of the page fetch reads [error.response.error] and throws: the
    pager requests the pages 2 and 3 and then never calls back, neither with
    (error, null) nor with anything else; [getOrders] on the same exchange
    ends the same way after three requests.  With an error response in place
    of the missing one the call back is (error, null). *)
Theorem getOrderPages_unanswered_page :
  answers (env_with unreachable_listing) (btc_clp_orders +:+ "?page=3") HttpNoResponse
  /\ fst (pollOrders (env_with unreachable_listing) 10 trader
            (listing None page_a 1 3 (Some 5)) "btc-clp" None [])
     = Throw "TypeError: Cannot read property 'error' of undefined"
  /\ map req_url (requests_of (snd (pollOrders (env_with unreachable_listing) 10 trader
                                      (listing None page_a 1 3 (Some 5)) "btc-clp" None [])))
     = [btc_clp_orders +:+ "?page=2"; btc_clp_orders +:+ "?page=3"]
  /\ fst (getOrders (env_with unreachable_listing) 10 trader "btc-clp" [])
     = Throw "TypeError: Cannot read property 'error' of undefined"
  /\ map req_url (requests_of (snd (getOrders (env_with unreachable_listing) 10 trader
                                      "btc-clp" [])))
     = [btc_clp_orders; btc_clp_orders +:+ "?page=2"; btc_clp_orders +:+ "?page=3"]
  /\ fst (pollOrders (env_with broken_listing) 10 trader
            (listing None page_a 1 3 (Some 5)) "btc-clp" None [])
     = Ret (Cb (Some (mkEnvelope false (Some "server_error") (OtherBody JNull))) None).
Proof.
  split.
  - intros log rq Hurl. cbn [transport env_with]. unfold unreachable_listing.
    rewrite Hurl. reflexivity.
  - vm_compute. repeat split.
Qed.

(** ** Withdrawals *)

(** X1.  The part of C8 that the method keeps: when [stg] does not open the
    endpoint, a BTC address that fails the rules of the implied network is
    answered with InvalidRequest:InvalidBitcoinAddress without any I/O, and an
    address that passes them leads, on a client with a secret, to one POST
    whose body carries the target address and, as amount, what [toSatoshi]
    makes of the requested amount. *)
Lemma requestWithdrawal_BTC (E : Env) (c : Client) (opts : Part002.withdrawal_opts)
    (log : list event) :
  toUpper (Part002.currency opts) = "BTC" ->
  indexOf (api c) "stg" <> 0 ->
  (validate E (Part002.target_address opts) (address_network c) = false ->
     Part002.requestWithdrawal E c opts log = (Ret (local_failure InvalidBitcoinAddress), log))
  /\ (validate E (Part002.target_address opts) (address_network c) = true ->
      secret c <> "" ->
      let body :=
        Part002.withdrawalOpts [("target_address", JStr (Part002.target_address opts))]
          (toSatoshi E (Part002.amount opts)) "BTC" in
      exists hdrs,
        requests_of (snd (Part002.requestWithdrawal E c opts log))
        = requests_of log ++ [mkRequest "POST" (api c +:+ "/withdrawals") hdrs (Some body)]).
Proof.
  intros Hbtc Hstg. unfold Part002.requestWithdrawal, address_network. rewrite Hbtc.
  cbn [String.eqb Ascii.eqb Bool.eqb andb].
  destruct (0 <? indexOf (api c) "stg") eqn:Hpos.
  - replace (indexOf (api c) "stg" <? 0) with false
      by (symmetry; apply Z.ltb_ge; apply Z.ltb_lt in Hpos; lia).
    cbn [andb orb]. split; intros Hv; rewrite Hv; cbn [negb orb]; [reflexivity |].
    intros Hs. rewrite (secret_guard c Hs). unfold bind.
    rewrite getAuthHeaders_body by (left; reflexivity).
    eexists. cbn [http_end]. rewrite end_callback_log, !requests_of_app.
    cbn [requests_of flat_map app]. rewrite app_nil_r. reflexivity.
  - replace (indexOf (api c) "stg" <? 0) with true
      by (symmetry; apply Z.ltb_lt; apply Z.ltb_ge in Hpos; lia).
    cbn [andb orb]. split; intros Hv; rewrite Hv; cbn [negb orb]; [reflexivity |].
    intros Hs. rewrite (secret_guard c Hs). unfold bind.
    rewrite getAuthHeaders_body by (left; reflexivity).
    eexists. cbn [http_end]. rewrite end_callback_log, !requests_of_app.
    cbn [requests_of flat_map app]. rewrite app_nil_r. reflexivity.
Qed.

Lemma requestWithdrawal_BTC_witness :
  exists hdrs,
    requests_of (snd (Part002.requestWithdrawal testnet_env staging
                        (Part002.mkWithdrawalOpts "btc" "mipcBbFg9gMiCh81Kj8tqqdgoZub1ZJRfn" (NInt 2)) []))
    = requests_of []
      ++ [mkRequest "POST" (api staging +:+ "/withdrawals") hdrs
            (Some (Part002.withdrawalOpts
                     [("target_address", JStr "mipcBbFg9gMiCh81Kj8tqqdgoZub1ZJRfn")]
                     (JNum 200000000) "BTC"))].
Proof.
  apply (proj2 (requestWithdrawal_BTC testnet_env staging
                  (Part002.mkWithdrawalOpts "btc" "mipcBbFg9gMiCh81Kj8tqqdgoZub1ZJRfn" (NInt 2)) []
                  ltac:(reflexivity) ltac:(vm_compute; discriminate))
           ltac:(reflexivity) ltac:(discriminate)).
Defined.

(** C8 at its failing input.  The endpoint [stg.surbtc.com/api/v2] names the
    staging exchange, with [stg] at position 0: neither [indexOf > 0] nor
    [indexOf < 0] holds, the address is not tested at all, and a BTC
    withdrawal to an address that no network accepts is sent to the exchange. *)
Theorem requestWithdrawal_stg_at_start :
  indexOf (api staging_by_name) "stg" = 0
  /\ validate silent_env "not-an-address" "testnet" = false
  /\ validate silent_env "not-an-address" "prod" = false
  /\ fst (Part002.requestWithdrawal silent_env staging_by_name
            (Part002.mkWithdrawalOpts "BTC" "not-an-address" (NInt 1)) [])
     = Ret (Cb None (Some (mkEnvelope true None NoBody)))
  /\ map (fun rq => (req_verb rq, req_url rq, req_body rq))
       (requests_of (snd (Part002.requestWithdrawal silent_env staging_by_name
                            (Part002.mkWithdrawalOpts "BTC" "not-an-address" (NInt 1)) [])))
     = [("POST", "stg.surbtc.com/api/v2/withdrawals",
         Some (Part002.withdrawalOpts [("target_address", JStr "not-an-address")]
                (JNum 100000000) "BTC"))].
Proof. vm_compute. repeat split. Qed.

(** X2.  The callback of [getExchangeFee] given as third argument: on a client
    without secret the guard invokes the fourth argument, which is undefined. *)
Lemma getExchangeFee_callback_third (E : Env) (c : Client) (marketId type : string)
    (log : list event) :
  secret c = "" ->
  getExchangeFee E c marketId type CallbackThird log
  = (Throw "TypeError: callback is not a function", log).
Proof. intros Hs. unfold getExchangeFee. now rewrite Hs. Qed.

Lemma getExchangeFee_callback_third_witness :
  getExchangeFee silent_env anonymous "btc-clp" "bid" CallbackThird []
  = (Throw "TypeError: callback is not a function", []).
Proof. apply (getExchangeFee_callback_third silent_env anonymous "btc-clp" "bid" []). reflexivity. Defined.


(** * Further properties of the client *)

(** ** Public endpoints *)

(** X3.  The public methods [getMarkets] and [getOrderBook] never read the clock and
    send the base headers alone, so their whole run, request included, is the
    same for two clients that differ in key and secret only; in particular they
    reach the exchange on a client without secret. *)
Theorem public_methods_ignore_credentials (E : Env) (c1 c2 : Client) (marketId : string)
    (log : list event) :
  api c1 = api c2 -> headers c1 = headers c2 ->
  getMarkets E c1 log = getMarkets E c2 log
  /\ getOrderBook E c1 marketId log = getOrderBook E c2 marketId log
  /\ snd (getMarkets E c1 log)
     = log ++ [EvRequest (mkRequest "GET" (api c1 +:+ "/markets") (headers c1) None)]
  /\ snd (getOrderBook E c1 marketId log)
     = log ++ [EvRequest (mkRequest "GET" (api c1 +:+ "/markets/" +:+ marketId +:+ "/order_book")
                            (headers c1) None)].
Proof.
  intros Hapi Hheaders.
  unfold getMarkets, getOrderBook, _getFullUrl, bind. rewrite Hapi, Hheaders.
  cbn [http_end]. rewrite !end_callback_log. repeat split.
Qed.

Lemma public_methods_ignore_credentials_witness :
  getMarkets silent_env anonymous [] = getMarkets silent_env trader [].
Proof.
  apply (public_methods_ignore_credentials silent_env anonymous trader "btc-clp" []);
    reflexivity.
Defined.

(** ** Every authenticated method is one signed round trip *)

Lemma signed_get_as_sent (E : Env) (c : Client) (path : string) (log : list event) :
  signed_as_sent E c (now E log) (signed_get E c path log).
Proof. reflexivity. Qed.

Lemma one_round_trip_GET (E : Env) (c : Client) (path : string) (log : list event) :
  one_round_trip E c "GET" path None log (authenticated_request E c "GET" path None log).
Proof.
  exists (signed_get E c path log). unfold authenticated_request, bind.
  rewrite getAuthHeaders_GET. unfold http_end, ret. rewrite <- app_assoc. repeat split.
Qed.

Lemma one_round_trip_body (E : Env) (c : Client) (verb path : string) (data : json)
    (log : list event) :
  verb = "POST" \/ verb = "PUT" ->
  one_round_trip E c verb path (Some data) log
    (authenticated_request E c verb path (Some data) log).
Proof.
  intros Hverb. eexists. unfold authenticated_request, bind.
  rewrite getAuthHeaders_body by exact Hverb.
  unfold http_end, ret. rewrite <- app_assoc. repeat split.
Qed.

(** X4.  On a client with a secret, each of these methods reads the clock once and
    issues exactly one request, to the endpoint followed by the path of the
    method, whose signature is taken over the verb, the path and the body that
    are actually sent ([cancelOrderId] of src/index.js is the method that does
    not: it signs a GET and sends a PUT); the outcome is that of the handler of
    [.end] on the answer to that request.  The amount [registerDeposit] sends
    is the product of the deposit amount and 100, as the environment computes
    it. *)
Theorem authenticated_methods_round_trip (E : Env) (c : Client) (log : list event) :
  secret c <> "" ->
  (forall currency,
     one_round_trip E c "GET" ("/balances/" +:+ currency) None log
       (Index.getBalances E c currency log))
  /\ (forall currency,
        one_round_trip E c "GET"
          (if truthy_string currency then "/balances/" +:+ currency else "/balances") None log
          (Part002.getBalances E c currency log))
  /\ (forall marketId type marketOrder,
        let path := "/markets/" +:+ marketId +:+ "/fee_percentage?type=" +:+ capitalize type in
        one_round_trip E c "GET"
          (match marketOrder with
           | MarketOrder true => path +:+ "&market_order=true"
           | _ => path
           end) None log
          (getExchangeFee E c marketId type marketOrder log))
  /\ (forall marketId type amount,
        one_round_trip E c "POST" ("/markets/" +:+ marketId +:+ "/quotations")
          (Some (quotation_data (lowerCase E type) false amount)) log
          (getQuotation E c marketId type amount log))
  /\ (forall marketId type amount,
        one_round_trip E c "POST" ("/markets/" +:+ marketId +:+ "/quotations")
          (Some (quotation_data (lowerCase E type) true amount)) log
          (getReverseQuotation E c marketId type amount log))
  /\ (forall marketId order,
        one_round_trip E c "POST" ("/markets/" +:+ marketId +:+ "/orders") (Some order) log
          (createOrder E c marketId order log))
  /\ (forall marketId page,
        one_round_trip E c "GET"
          (if page =? 0 then listing_path marketId else page_path marketId page) None log
          (getOrdersRaw E c marketId page log))
  /\ (forall orderId,
        one_round_trip E c "GET" ("/orders/" +:+ string_of_Z orderId) None log
          (getOrderId E c orderId log))
  /\ (forall opts,
        one_round_trip E c "POST" "/deposits"
          (Some (JObj [("amount", product E (Part002.deposit_amount opts) 100);
                       ("currency", JStr (toUpper (Part002.deposit_currency opts)))])) log
          (Part002.registerDeposit E c opts log)).
Proof.
  intros Hs. pose proof (secret_guard c Hs) as Hguard.
  repeat match goal with |- _ /\ _ => split end; intros.
  - unfold Index.getBalances. rewrite Hguard. apply one_round_trip_GET.
  - unfold Part002.getBalances. rewrite Hguard.
    destruct (truthy_string currency); apply one_round_trip_GET.
  - unfold getExchangeFee. rewrite Hguard. subst path.
    destruct marketOrder as [[|] |]; apply one_round_trip_GET.
  - unfold getQuotation. rewrite Hguard. apply one_round_trip_body. now left.
  - unfold getReverseQuotation. rewrite Hguard. apply one_round_trip_body. now left.
  - unfold createOrder. rewrite Hguard. apply one_round_trip_body. now left.
  - unfold getOrdersRaw. rewrite Hguard. destruct (page =? 0); apply one_round_trip_GET.
  - unfold getOrderId. rewrite Hguard. apply one_round_trip_GET.
  - unfold Part002.registerDeposit. rewrite Hguard. apply one_round_trip_body. now left.
Qed.

Lemma authenticated_methods_round_trip_witness :
  one_round_trip silent_env trader "POST" ("/markets/" +:+ "btc-clp" +:+ "/orders")
    (Some a_limit_order) []
    (createOrder silent_env trader "btc-clp" a_limit_order []).
Proof.
  destruct (authenticated_methods_round_trip silent_env trader [] ltac:(discriminate))
    as (_ & _ & _ & _ & _ & Hcreate & _).
  exact (Hcreate "btc-clp" a_limit_order).
Defined.

(** ** Withdrawals in other currencies *)

(** X5.  A withdrawal in a currency other than BTC is sent without any address
    test and without the target address: for CLP and COP (in any letter case)
    the amount sent is the product of the requested amount and 100, as the
    environment computes it on doubles; for every other currency the amount
    sent is 0, whatever amount was asked for. *)
Theorem requestWithdrawal_other_currencies (E : Env) (c : Client)
    (opts : Part002.withdrawal_opts) (log : list event) :
  toUpper (Part002.currency opts) <> "BTC" ->
  secret c <> "" ->
  let currency := toUpper (Part002.currency opts) in
  let amount :=
    if String.eqb currency "CLP" || String.eqb currency "COP"
    then product E (Part002.amount opts) 100 else JNum 0 in
  one_round_trip E c "POST" "/withdrawals"
    (Some (Part002.withdrawalOpts [] amount currency)) log
    (Part002.requestWithdrawal E c opts log).
Proof.
  intros Hbtc Hs currency amount. unfold Part002.requestWithdrawal.
  apply String.eqb_neq in Hbtc. rewrite Hbtc. subst amount currency.
  destruct (String.eqb (toUpper (Part002.currency opts)) "CLP"
            || String.eqb (toUpper (Part002.currency opts)) "COP");
    rewrite (secret_guard c Hs); apply one_round_trip_body; now left.
Qed.

Lemma requestWithdrawal_other_currencies_witness :
  one_round_trip silent_env trader "POST" "/withdrawals"
    (Some (Part002.withdrawalOpts [] (JNum 0) "USD")) []
    (Part002.requestWithdrawal silent_env trader
       (Part002.mkWithdrawalOpts "usd" "anywhere" (NInt 250)) []).
Proof.
  apply (requestWithdrawal_other_currencies silent_env trader
           (Part002.mkWithdrawalOpts "usd" "anywhere" (NInt 250)) []); discriminate.
Defined.

(** ** Bank accounts *)

Lemma find_bank_None (banks : list (string * json)) (name : string) :
  Part002.find_bank banks name = None <-> ~ In name (map fst banks).
Proof.
  induction banks as [| [n id] rest IH]; cbn [Part002.find_bank map fst In].
  - split; [intros _ [] | reflexivity].
  - destruct (String.eqb n name) eqn:Hn.
    + apply String.eqb_eq in Hn. split; [discriminate | intros Hnot; exfalso; apply Hnot; now left].
    + apply String.eqb_neq in Hn. rewrite IH. split.
      * intros Hrest [Heq | Hin]; [now apply Hn | now apply Hrest].
      * intros Hnot Hin. apply Hnot. now right.
Qed.

Lemma find_bank_Some (banks : list (string * json)) (name : string) (id : json) :
  Part002.find_bank banks name = Some id -> In (name, id) banks.
Proof.
  induction banks as [| [n i] rest IH]; cbn [Part002.find_bank In]; [discriminate |].
  destruct (String.eqb n name) eqn:Hn.
  - apply String.eqb_eq in Hn. intros [= ->]. subst n. now left.
  - intros Hfound. right. now apply IH.
Qed.

(** X6.  [registerBankAccount] looks the bank up by name before anything else: for
    a name that is not in the table it throws, whatever the secret, before the
    guard and without any I/O; for a name of the table, on a client with a
    secret, it issues one signed PUT to /fiat_accounts/CURRENCY whose bank_id
    is an id the table lists under that name. *)
Theorem registerBankAccount_bank_lookup (E : Env) (c : Client)
    (opts : Part002.bank_account_opts) (log : list event) :
  (~ In (Part002.bank_name opts) (map fst (colombiaBanks E)) ->
     Part002.registerBankAccount E c opts log
     = (Throw "TypeError: cannot read property id of undefined", log))
  /\ (In (Part002.bank_name opts) (map fst (colombiaBanks E)) ->
      secret c <> "" ->
      exists bankId,
        In (Part002.bank_name opts, bankId) (colombiaBanks E)
        /\ one_round_trip E c "PUT"
             ("/fiat_accounts/" +:+ toUpper (Part002.bank_currency opts))
             (Some (JObj [("email", JStr (Part002.email opts));
                          ("phone", JStr (Part002.phone opts));
                          ("document_number", JStr (Part002.bank_account_holder_id opts));
                          ("full_name", JStr (Part002.bank_account_holder_name opts));
                          ("account_number", JStr (Part002.bank_account_number opts));
                          ("account_type", JStr (Part002.bank_account_type opts));
                          ("bank_id", bankId)])) log
             (Part002.registerBankAccount E c opts log)).
Proof.
  split.
  - intros Hmissing. apply find_bank_None in Hmissing.
    unfold Part002.registerBankAccount. now rewrite Hmissing.
  - intros Hlisted Hs.
    destruct (Part002.find_bank (colombiaBanks E) (Part002.bank_name opts)) as [bankId |] eqn:Hfind.
    + exists bankId. split; [now apply find_bank_Some |].
      unfold Part002.registerBankAccount. rewrite Hfind, (secret_guard c Hs).
      apply one_round_trip_body. now right.
    + apply find_bank_None in Hfind. contradiction.
Qed.

Lemma registerBankAccount_bank_lookup_witness :
  Part002.registerBankAccount silent_env trader
    (Part002.mkBankAccountOpts "cop" "Banco Desconocido" "a@b.co" "555" "1" "A B" "123" "savings") []
  = (Throw "TypeError: cannot read property id of undefined", []).
Proof.
  apply (proj1 (registerBankAccount_bank_lookup silent_env trader
                  (Part002.mkBankAccountOpts "cop" "Banco Desconocido" "a@b.co" "555" "1" "A B"
                     "123" "savings") [])).
  cbn. intros [H | []]. discriminate H.
Defined.

(** ** The two revisions of getBalances *)

(** X7.  For a non-empty currency the two revisions of [getBalances] run alike; for
    the empty currency the older one asks for /balances/ and the later one for
    /balances. *)
Theorem getBalances_revisions (E : Env) (c : Client) (currency : string) (log : list event) :
  (currency <> "" -> Index.getBalances E c currency log = Part002.getBalances E c currency log)
  /\ (secret c <> "" ->
      map req_url (requests_of (snd (Index.getBalances E c "" log)))
        = map req_url (requests_of log) ++ [api c +:+ "/balances/"]
      /\ map req_url (requests_of (snd (Part002.getBalances E c "" log)))
        = map req_url (requests_of log) ++ [api c +:+ "/balances"]).
Proof.
  split.
  - intros Hne. unfold Index.getBalances, Part002.getBalances, truthy_string.
    apply String.eqb_neq in Hne. now rewrite Hne.
  - intros Hs. unfold Index.getBalances, Part002.getBalances.
    rewrite (secret_guard c Hs). cbn [truthy_string String.eqb negb].
    destruct (one_round_trip_GET E c "/balances/" log) as (rq1 & Hrun1 & _ & Hurl1 & _).
    destruct (one_round_trip_GET E c "/balances" log) as (rq2 & Hrun2 & _ & Hurl2 & _).
    unfold authenticated_request in Hrun1, Hrun2.
    change ("/balances/" +:+ "") with "/balances/".
    rewrite Hrun1, Hrun2, !end_callback_log.
    rewrite !requests_of_app, !map_app. cbn. rewrite Hurl1, Hurl2. split; reflexivity.
Qed.

Lemma getBalances_revisions_witness :
  Index.getBalances silent_env trader "btc" [] = Part002.getBalances silent_env trader "btc" [].
Proof.
  apply (proj1 (getBalances_revisions silent_env trader "btc" [])). discriminate.
Defined.

(** ** Every request of the compound methods is signed as it is sent *)

Lemma one_round_trip_signed_log (E : Env) (c : Client) (verb path : string)
    (body : option json) (log : list event) (run : res callback_args * list event) :
  one_round_trip E c verb path body log run ->
  signed_log E c log -> signed_log E c (snd run).
Proof.
  intros (rq & -> & _ & _ & _ & Hsigned) Hlog. rewrite end_callback_log.
  now apply signed_log_round.
Qed.

Lemma getOrderId_signed_log (E : Env) (c : Client) (orderId : Z) (log : list event) :
  signed_log E c log -> signed_log E c (snd (getOrderId E c orderId log)).
Proof.
  intros Hlog. unfold getOrderId.
  destruct (String.eqb (secret c) ""); [exact Hlog |].
  eapply one_round_trip_signed_log; [apply one_round_trip_GET | exact Hlog].
Qed.

Lemma getOrdersRaw_signed_log (E : Env) (c : Client) (marketId : string) (page : Z)
    (log : list event) :
  signed_log E c log -> signed_log E c (snd (getOrdersRaw E c marketId page log)).
Proof.
  intros Hlog. unfold getOrdersRaw.
  destruct (String.eqb (secret c) ""); [exact Hlog |].
  eapply one_round_trip_signed_log; [apply one_round_trip_GET | exact Hlog].
Qed.

Lemma createOrder_signed_log (E : Env) (c : Client) (marketId : string) (order : json)
    (log : list event) :
  signed_log E c log -> signed_log E c (snd (createOrder E c marketId order log)).
Proof.
  intros Hlog. unfold createOrder.
  destruct (String.eqb (secret c) ""); [exact Hlog |].
  eapply one_round_trip_signed_log; [apply one_round_trip_body; now left | exact Hlog].
Qed.

Lemma getOrderPages_signed_log (E : Env) (c : Client) (marketId : string)
    (state : option string) (fuel : nat) :
  forall (orders : envelope) (log : list event),
    signed_log E c log ->
    signed_log E c (snd (_getOrderPages E fuel c orders marketId state log)).
Proof.
  induction fuel as [| fuel IH]; intros orders log Hlog; [exact Hlog |].
  cbn [_getOrderPages].
  destruct (env_data orders) as [o | os m | j |]; try exact Hlog.
  match goal with |- context [if ?b then _ else _] =>
    destruct b eqn:Hmore end; [| exact Hlog].
  unfold bind.
  match goal with |- context [getOrdersRaw E c marketId ?p log] =>
    pose proof (getOrdersRaw_signed_log E c marketId p log Hlog) as Hraw;
    destruct (getOrdersRaw E c marketId p log) as [[r | msg | why |] log1] end;
    cbn [snd] in Hraw |- *; try exact Hraw.
  destruct (cb_error r); [exact Hraw |].
  destruct (cb_result r) as [response |]; [| exact Hraw].
  destruct (env_data response); try exact Hraw.
  now apply IH.
Qed.

Lemma getOrderState_signed_log (E : Env) (c : Client) (status : string) (fuel : nat) :
  forall (order : envelope) (log : list event),
    signed_log E c log ->
    signed_log E c (snd (_getOrderState E fuel c order status log)).
Proof.
  induction fuel as [| fuel IH]; intros order log Hlog; [exact Hlog |].
  cbn [_getOrderState].
  destruct (success order); [| exact Hlog].
  destruct (env_data order) as [o | os m | j |]; try exact Hlog.
  destruct (negb (String.eqb (order_state o) status)); [| exact Hlog].
  unfold bind at 1.
  pose proof (getOrderId_signed_log E c (order_id o) log Hlog) as Hfetch.
  destruct (getOrderId E c (order_id o) log) as [[r | msg | why |] log1];
    cbn [snd] in Hfetch |- *; try exact Hfetch.
  destruct (cb_error r); [exact Hfetch |].
  destruct (cb_result r) as [response |].
  - unfold bind, emit. apply IH. now apply signed_log_delay.
  - unfold bind, emit, throw. cbn [snd]. now apply signed_log_delay.
Qed.

Lemma waterfall_signed_log (E : Env) (c : Client) (first : M callback_args)
    (second : envelope -> M callback_args) (log : list event) :
  signed_log E c (snd (first log)) ->
  (forall x log', signed_log E c log' -> signed_log E c (snd (second x log'))) ->
  signed_log E c (snd (waterfall first second log)).
Proof.
  intros Hfirst Hsecond. unfold waterfall, bind.
  destruct (first log) as [[r | msg | why |] log1]; cbn [snd] in Hfirst |- *; try exact Hfirst.
  destruct (cb_error r); [exact Hfirst |].
  destruct (cb_result r); [now apply Hsecond | exact Hfirst].
Qed.

Lemma signed_log_requests (E : Env) (c : Client) (log : list event) :
  signed_log E c log ->
  Forall (fun rq => exists nonce, signed_as_sent E c nonce rq) (requests_of log)
  /\ Forall (fun ms => ms = 500) (timeouts_of log).
Proof.
  induction 1 as [| log rq _ [IHr IHt] Hsigned | log _ [IHr IHt]].
  - split; constructor.
  - rewrite requests_of_app, timeouts_of_app. split.
    + apply Forall_app. split; [exact IHr |]. repeat constructor. now exists (now E log).
    + cbn. now rewrite app_nil_r.
  - rewrite requests_of_app, timeouts_of_app. split.
    + cbn. now rewrite app_nil_r.
    + apply Forall_app. split; [exact IHt |]. now repeat constructor.
Qed.

(** X8.  Whatever the exchange answers and for every budget of activations, the
    paged listings, the state poll and create-and-trade extend the log by
    signed round trips and half-second delays only: each request they issue
    directly follows its own clock reading and is signed over exactly the verb,
    path and body it is sent with and over that reading, and every delay is of
    500 milliseconds. *)
Theorem compound_methods_sign_every_request (E : Env) (c : Client) (fuel : nat)
    (log : list event) :
  signed_log E c log ->
  (forall marketId, signed_log E c (snd (getOrders E fuel c marketId log)))
  /\ (forall marketId state, signed_log E c (snd (getOrdersByState E fuel c marketId state log)))
  /\ (forall order status, signed_log E c (snd (pollOrderState E fuel c order status log)))
  /\ (forall marketId order,
        signed_log E c (snd (createAndTradeOrder E fuel c marketId order log)))
  /\ (forall final, signed_log E c final ->
        Forall (fun rq => exists nonce, signed_as_sent E c nonce rq) (requests_of final)
        /\ Forall (fun ms => ms = 500) (timeouts_of final)).
Proof.
  intros Hlog. repeat match goal with |- _ /\ _ => split end.
  - intros marketId. unfold getOrders. apply waterfall_signed_log.
    + now apply getOrdersRaw_signed_log.
    + intros x log' Hlog'. now apply getOrderPages_signed_log.
  - intros marketId state. unfold getOrdersByState. apply waterfall_signed_log.
    + now apply getOrdersRaw_signed_log.
    + intros x log' Hlog'. now apply getOrderPages_signed_log.
  - intros order status. now apply getOrderState_signed_log.
  - intros marketId order. unfold createAndTradeOrder. apply waterfall_signed_log.
    + now apply createOrder_signed_log.
    + intros x log' Hlog'. now apply getOrderState_signed_log.
  - intros final Hfinal. exact (signed_log_requests E c final Hfinal).
Qed.

Lemma compound_methods_sign_every_request_witness :
  signed_log (env_with one_based_listing) trader
    (snd (getOrders (env_with one_based_listing) 3 trader "btc-clp" [])).
Proof.
  destruct (compound_methods_sign_every_request (env_with one_based_listing) trader 3 []
              (signed_log_nil _ _)) as (Hlisting & _).
  exact (Hlisting "btc-clp").
Defined.

(** ** The poller over several refetches *)

Lemma getOrderState_refetch (E : Env) (c : Client) (order : envelope) (o o' : Order)
    (status : string) (fuel : nat) (log : list event) :
  secret c <> "" ->
  success order = true -> env_data order = OrderBody o -> order_state o <> status ->
  let rq := signed_get E c ("/orders/" +:+ string_of_Z (order_id o)) log in
  transport E (log ++ [EvNow (now E log)]) rq = HttpOk (OrderBody o') ->
  _getOrderState E (S fuel) c order status log
  = _getOrderState E fuel c (mkEnvelope true None (OrderBody o')) status
      (log ++ [EvNow (now E log); EvRequest rq; EvTimeout 500]).
Proof.
  intros Hs Hsuccess Hdata Hne rq Hanswer.
  rewrite (getOrderState_step E c order (mkEnvelope true None (OrderBody o')) o status fuel log
             (log ++ [EvNow (now E log); EvRequest rq])); try assumption.
  - now rewrite <- app_assoc.
  - rewrite getOrderId_run by assumption. fold rq. now rewrite Hanswer.
Qed.

(** X9.  When the exchange reports the order in other states for a number of
    refetches and in the target state at the next one, [pollOrderState] calls
    back with that last envelope in the result position after exactly that
    many requests plus one, each followed by one delay of 500 milliseconds;
    every refetch asks for the id of the order fetched before. *)
Theorem pollOrderState_converges (E : Env) (c : Client) (status : string) (final : Order)
    (fuel : nat) :
  secret c <> "" ->
  order_state final = status ->
  forall (mids : list Order) (o : Order) (order : envelope) (log : list event),
    success order = true -> env_data order = OrderBody o ->
    Forall (fun x => order_state x <> status) (o :: mids) ->
    refetched E c o log (mids ++ [final]) ->
    exists log',
      pollOrderState E (S (length mids) + S fuel) c order status log
      = (Ret (Cb None (Some (mkEnvelope true None (OrderBody final)))), log')
      /\ length (requests_of log') = (length (requests_of log) + S (length mids))%nat
      /\ timeouts_of log' = timeouts_of log ++ repeat 500 (S (length mids)).
Proof.
  intros Hs Hfinal. unfold pollOrderState.
  induction mids as [| m mids IH]; intros o order log Hsuccess Hdata Hstates Hfetched.
  - destruct Hfetched as [Hanswer _]. inversion Hstates as [| ? ? Hne _]; subst.
    eexists. split; [| split].
    + cbn [length Nat.add]. rewrite (getOrderState_refetch E c order o final) by assumption.
      now rewrite getOrderState_reached.
    + rewrite requests_of_app. cbn. rewrite length_app. reflexivity.
    + rewrite timeouts_of_app. reflexivity.
  - destruct Hfetched as [Hanswer Hrest]. inversion Hstates as [| ? ? Hne Hmids]; subst.
    destruct (IH m (mkEnvelope true None (OrderBody m)) _ eq_refl eq_refl Hmids Hrest)
      as (log' & Hrun & Hrequests & Htimeouts).
    exists log'. split; [| split].
    + cbn [length Nat.add]. rewrite (getOrderState_refetch E c order o m) by assumption.
      exact Hrun.
    + rewrite Hrequests, requests_of_app. cbn. rewrite length_app. cbn. lia.
    + rewrite Htimeouts, timeouts_of_app. cbn. now rewrite <- app_assoc.
Qed.

Lemma pollOrderState_converges_witness :
  exists log',
    pollOrderState trading_env (S (length [mkOrder 42 "pending"]) + 1) trader pending_order
      "traded" []
    = (Ret (Cb None (Some (mkEnvelope true None (OrderBody (mkOrder 42 "traded"))))), log')
    /\ length (requests_of log') = (length (requests_of []) + S (length [mkOrder 42 "pending"]))%nat
    /\ timeouts_of log' = timeouts_of [] ++ repeat 500 (S (length [mkOrder 42 "pending"])).
Proof.
  apply (pollOrderState_converges trading_env trader "traded" (mkOrder 42 "traded") 0
           ltac:(discriminate) eq_refl [mkOrder 42 "pending"] (mkOrder 42 "pending")
           pending_order [] eq_refl eq_refl).
  - repeat constructor; discriminate.
  - repeat split.
Defined.

(** X10.  The poll has no bound of its own: when the exchange keeps reporting the
    order in a state other than the target, then for every budget of
    activations the poll is still running when the budget is used up, having
    issued one request and waited 500 milliseconds per activation; it never
    calls back. *)
Theorem pollOrderState_never_gives_up (E : Env) (c : Client) (o : Order) (status : string) :
  secret c <> "" ->
  order_state o <> status ->
  answers E (order_url c (order_id o)) (HttpOk (OrderBody o)) ->
  forall (fuel : nat) (order : envelope) (log : list event),
    success order = true -> env_data order = OrderBody o ->
    exists log',
      pollOrderState E fuel c order status log = (Diverge, log')
      /\ length (requests_of log') = (length (requests_of log) + fuel)%nat
      /\ timeouts_of log' = timeouts_of log ++ repeat 500 fuel.
Proof.
  intros Hs Hne Hanswers. unfold pollOrderState.
  induction fuel as [| fuel IH]; intros order log Hsuccess Hdata.
  - exists log. cbn. rewrite Nat.add_0_r, app_nil_r. repeat split.
  - destruct (IH (mkEnvelope true None (OrderBody o))
                (log ++ [EvNow (now E log);
                         EvRequest (signed_get E c ("/orders/" +:+ string_of_Z (order_id o)) log);
                         EvTimeout 500]) eq_refl eq_refl)
      as (log' & Hrun & Hrequests & Htimeouts).
    exists log'. split; [| split].
    + rewrite (getOrderState_refetch E c order o o) by (assumption || now apply Hanswers).
      exact Hrun.
    + rewrite Hrequests, requests_of_app. cbn. rewrite length_app. cbn. lia.
    + rewrite Htimeouts, timeouts_of_app. cbn. now rewrite <- app_assoc.
Qed.

Lemma pollOrderState_never_gives_up_witness :
  exists log',
    pollOrderState pending_env 7 trader pending_order "traded" [] = (Diverge, log')
    /\ length (requests_of log') = (length (requests_of []) + 7)%nat
    /\ timeouts_of log' = timeouts_of [] ++ repeat 500 7.
Proof.
  apply (pollOrderState_never_gives_up pending_env trader (mkOrder 42 "pending") "traded"
           ltac:(discriminate) ltac:(discriminate)
           ltac:(intros log rq Hurl; reflexivity) 7 pending_order [] eq_refl eq_refl).
Defined.

(** X11.  A refetch that fails ends the poll at once: the error of the fetch goes
    to the callback with a null result and no delay follows; on a client
    without secret this happens at the first refetch, without any I/O. *)
Theorem pollOrderState_refetch_fails (E : Env) (c : Client) (order : envelope) (o : Order)
    (status : string) (fuel : nat) (log : list event) :
  success order = true -> env_data order = OrderBody o -> order_state o <> status ->
  (secret c = "" ->
     pollOrderState E (S fuel) c order status log = (Ret (local_failure ApiKeyRequired), log))
  /\ (forall kind details,
        secret c <> "" ->
        answers E (order_url c (order_id o)) (HttpError kind details) ->
        pollOrderState E (S fuel) c order status log
        = (Ret (Cb (Some (mkEnvelope false kind (OtherBody details))) None),
           log ++ [EvNow (now E log);
                   EvRequest (signed_get E c ("/orders/" +:+ string_of_Z (order_id o)) log)])).
Proof.
  intros Hsuccess Hdata Hne. apply String.eqb_neq in Hne.
  unfold pollOrderState. cbn [_getOrderState]. rewrite Hsuccess, Hdata, Hne. cbn [negb].
  split.
  - intros Hs. unfold bind, getOrderId. now rewrite Hs.
  - intros kind details Hs Hanswers. unfold bind at 1.
    rewrite getOrderId_run by assumption.
    now rewrite (Hanswers _ (signed_get E c ("/orders/" +:+ string_of_Z (order_id o)) log)).
Qed.

Lemma pollOrderState_refetch_fails_witness :
  pollOrderState silent_env 1 anonymous pending_order "traded" []
  = (Ret (local_failure ApiKeyRequired), []).
Proof.
  apply (proj1 (pollOrderState_refetch_fails silent_env anonymous pending_order
                  (mkOrder 42 "pending") "traded" 0 [] eq_refl eq_refl ltac:(discriminate))).
  reflexivity.
Defined.

(** ** Create and trade *)

Lemma createOrder_run (E : Env) (c : Client) (marketId : string) (order : json)
    (log : list event) :
  secret c <> "" ->
  let rq := signed_post E c (listing_path marketId) order log in
  createOrder E c marketId order log =
  end_callback (transport E (log ++ [EvNow (now E log)]) rq)
    (log ++ [EvNow (now E log); EvRequest rq]).
Proof.
  intros Hs rq. unfold createOrder. rewrite (secret_guard c Hs).
  unfold bind. rewrite getAuthHeaders_body by now left. unfold http_end, ret.
  rewrite <- app_assoc. reflexivity.
Qed.

(** X12.  [createAndTradeOrder] is [createOrder] followed by the poll for the state
    traded.  Without secret it fails before any I/O.  When the exchange
    refuses the order, the error is handed over with a null result after that
    single POST, and nothing is polled.  When the created order is already
    traded, the single POST is all.  When it is created in another state and
    the first refetch reports it traded, the call back is the traded envelope
    after the POST, one GET of the order by its id and one delay of 500
    milliseconds.  A created document without order makes the poll throw. *)
Theorem createAndTradeOrder_outcomes (E : Env) (c : Client) (marketId : string) (order : json)
    (fuel : nat) (log : list event) :
  let post := signed_post E c (listing_path marketId) order log in
  let created := log ++ [EvNow (now E log); EvRequest post] in
  (secret c = "" ->
     createAndTradeOrder E fuel c marketId order log = (Ret (local_failure ApiKeyRequired), log))
  /\ (forall kind details,
        secret c <> "" ->
        answers E (_getFullUrl c (listing_path marketId)) (HttpError kind details) ->
        createAndTradeOrder E fuel c marketId order log
        = (Ret (Cb (Some (mkEnvelope false kind (OtherBody details))) None), created))
  /\ (forall o,
        secret c <> "" ->
        answers E (_getFullUrl c (listing_path marketId)) (HttpOk (OrderBody o)) ->
        order_state o = "traded" ->
        createAndTradeOrder E (S fuel) c marketId order log
        = (Ret (Cb None (Some (mkEnvelope true None (OrderBody o)))), created))
  /\ (forall o o',
        secret c <> "" ->
        answers E (_getFullUrl c (listing_path marketId)) (HttpOk (OrderBody o)) ->
        order_state o <> "traded" ->
        answers E (order_url c (order_id o)) (HttpOk (OrderBody o')) ->
        order_state o' = "traded" ->
        createAndTradeOrder E (S (S fuel)) c marketId order log
        = (Ret (Cb None (Some (mkEnvelope true None (OrderBody o')))),
           created ++ [EvNow (now E created);
                       EvRequest (signed_get E c ("/orders/" +:+ string_of_Z (order_id o)) created);
                       EvTimeout 500]))
  /\ (forall j,
        secret c <> "" ->
        answers E (_getFullUrl c (listing_path marketId)) (HttpOk (OtherBody j)) ->
        createAndTradeOrder E (S fuel) c marketId order log
        = (Throw "TypeError: order.order is undefined", created)).
Proof.
  intros post created. unfold createAndTradeOrder, waterfall, pollOrderState.
  repeat match goal with |- _ /\ _ => split end.
  - intros Hs. unfold bind, createOrder. now rewrite Hs.
  - intros kind details Hs Hanswers. unfold bind. rewrite createOrder_run by assumption.
    fold post. now rewrite (Hanswers _ post).
  - intros o Hs Hanswers Htraded. unfold bind. rewrite createOrder_run by assumption.
    fold post. rewrite (Hanswers _ post) by reflexivity.
    cbn [end_callback ret cb_error cb_result responseHandler_success].
    rewrite <- Htraded. now rewrite getOrderState_reached.
  - intros o o' Hs Hanswers Hne Hrefetch Htraded. unfold bind at 1.
    rewrite createOrder_run by assumption.
    fold post. rewrite (Hanswers _ post) by reflexivity.
    cbn [end_callback ret cb_error cb_result responseHandler_success]. fold created.
    rewrite (getOrderState_refetch E c _ o o') by (assumption || reflexivity || now apply Hrefetch).
    rewrite <- Htraded. now rewrite getOrderState_reached by reflexivity.
  - intros j Hs Hanswers. unfold bind. rewrite createOrder_run by assumption.
    fold post. now rewrite (Hanswers _ post).
Qed.

Lemma createAndTradeOrder_outcomes_witness :
  createAndTradeOrder (env_with create_and_trade_server) 2 trader "btc-clp" a_limit_order []
  = (Ret (Cb None (Some (mkEnvelope true None (OrderBody (mkOrder 42 "traded"))))),
     ([] ++ [EvNow (now (env_with create_and_trade_server) []);
             EvRequest (signed_post (env_with create_and_trade_server) trader
                          (listing_path "btc-clp") a_limit_order [])])
     ++ [EvNow (now (env_with create_and_trade_server)
                  ([] ++ [EvNow (now (env_with create_and_trade_server) []);
                          EvRequest (signed_post (env_with create_and_trade_server) trader
                                       (listing_path "btc-clp") a_limit_order [])]));
         EvRequest (signed_get (env_with create_and_trade_server) trader
                      ("/orders/" +:+ string_of_Z 42)
                      ([] ++ [EvNow (now (env_with create_and_trade_server) []);
                              EvRequest (signed_post (env_with create_and_trade_server) trader
                                           (listing_path "btc-clp") a_limit_order [])]));
         EvTimeout 500]).
Proof.
  destruct (createAndTradeOrder_outcomes (env_with create_and_trade_server) trader "btc-clp"
              a_limit_order 0 []) as (_ & _ & _ & Htrade & _).
  apply (Htrade (mkOrder 42 "received") (mkOrder 42 "traded")).
  - discriminate.
  - intros log rq Hurl. cbn [transport env_with]. unfold create_and_trade_server.
    rewrite Hurl. reflexivity.
  - discriminate.
  - intros log rq Hurl. cbn [transport env_with]. unfold create_and_trade_server.
    rewrite Hurl. reflexivity.
  - reflexivity.
Defined.

(** ** The pager and the page numbering of the exchange *)

(** X13.  The pager takes the numbering from the first answer: when the listing
    without page parameter comes back as page p of a total of p + k pages, it
    asks for the pages p + 1 to p + k in this order, k + 1 requests in all and
    no delay between them, and returns the first answer's orders followed by
    those of the k pages, with current_page advanced to the total.  (With
    p = 0 and a total of 3 these are four requests.) *)
Theorem getOrders_requests_after_current_page (E : Env) (c : Client) (marketId : string)
    (first : list Order) (rest : list (list Order)) (p : Z) (tc : option Z)
    (fuel : nat) (log : list event) :
  secret c <> "" ->
  0 <= p ->
  let total := p + Z.of_nat (length rest) in
  answers E (_getFullUrl c (listing_path marketId))
    (HttpOk (OrdersBody first (mkMeta (Some p) (Some total) tc))) ->
  serves_pages E c marketId (Z.succ p) rest ->
  (length rest < fuel)%nat ->
  exists log',
    getOrders E fuel c marketId log
    = (Ret (Cb None (Some (mkEnvelope true None
               (OrdersBody (first ++ concat rest) (mkMeta (Some total) (Some total) tc))))), log')
    /\ map req_url (requests_of log')
       = map req_url (requests_of log)
         ++ _getFullUrl c (listing_path marketId)
            :: page_urls c marketId (Z.succ p) (length rest)
    /\ timeouts_of log' = timeouts_of log.
Proof.
  intros Hs Hp total Hfirst Hserved Hfuel.
  set (log1 := log ++ [EvNow (now E log); EvRequest (signed_get E c (listing_path marketId) log)]).
  destruct (getOrderPages_prefix E c marketId None total tc None (fuel - length rest) Hs
              rest first p log1) as (log' & Hrun & Hurls & Htimeouts);
    [lia | unfold total; lia | exact Hserved |].
  exists log'. split; [| split].
  - assert (Hstart : getOrders E fuel c marketId log
                     = _getOrderPages E fuel c (listing None first p total tc) marketId None log1).
    { unfold getOrders, waterfall, pollOrders, bind. rewrite getOrdersRaw_run by assumption.
      cbn [Z.eqb]. rewrite (Hfirst _ (signed_get E c (listing_path marketId) log)) by reflexivity.
      reflexivity. }
    rewrite Hstart.
    replace fuel with (length rest + (fuel - length rest))%nat at 1 by lia.
    rewrite Hrun.
    destruct (fuel - length rest)%nat as [| f] eqn:Hf; [lia |].
    rewrite getOrderPages_done by (unfold total; lia).
    fold total. cbn [truthy_state andb].
    pose proof (keep_absorb None rest first) as Hkept. unfold keep in Hkept.
    cbn [truthy_state] in Hkept. unfold keep. cbn [truthy_state]. now rewrite Hkept.
  - rewrite Hurls. unfold log1. rewrite requests_of_app, map_app, <- app_assoc. reflexivity.
  - rewrite Htimeouts. unfold log1. rewrite timeouts_of_app. cbn. apply app_nil_r.
Qed.

Lemma getOrders_requests_after_current_page_witness :
  exists log',
    getOrders (env_with zero_based_listing) 4 trader "btc-clp" []
    = (Ret (Cb None (Some (mkEnvelope true None
               (OrdersBody (page_a ++ concat [page_b; page_c; []])
                  (mkMeta (Some (0 + Z.of_nat (length [page_b; page_c; []])))
                          (Some (0 + Z.of_nat (length [page_b; page_c; []]))) (Some 5)))))),
       log')
    /\ map req_url (requests_of log')
       = map req_url (requests_of [])
         ++ _getFullUrl trader (listing_path "btc-clp")
            :: page_urls trader "btc-clp" (Z.succ 0) (length [page_b; page_c; []])
    /\ timeouts_of log' = timeouts_of [].
Proof.
  apply (getOrders_requests_after_current_page (env_with zero_based_listing) trader "btc-clp"
           page_a [page_b; page_c; []] 0 (Some 5) 4 []).
  - discriminate.
  - lia.
  - intros log rq Hurl. cbn [transport env_with]. unfold zero_based_listing.
    rewrite Hurl. reflexivity.
  - repeat split; eexists; intros log rq Hurl; cbn [transport env_with];
      unfold zero_based_listing; rewrite Hurl; reflexivity.
  - cbn. lia.
Defined.

(** X14.  When the first answer reports a current_page beyond total_pages (an
    empty listing numbered from 1, say), the pager asks for nothing more.  A
    state filter is still applied to the orders of that answer, but the meta
    is left as the exchange sent it: total_count is recomputed only when
    current_page equals total_pages. *)
Theorem pager_beyond_last_page (E : Env) (c : Client) (marketId : string)
    (first : list Order) (p total : Z) (tc : option Z) (fuel : nat) (log : list event) :
  secret c <> "" ->
  total < p ->
  answers E (_getFullUrl c (listing_path marketId))
    (HttpOk (OrdersBody first (mkMeta (Some p) (Some total) tc))) ->
  let log' := log ++ [EvNow (now E log); EvRequest (signed_get E c (listing_path marketId) log)] in
  getOrders E (S fuel) c marketId log
  = (Ret (Cb None (Some (mkEnvelope true None
             (OrdersBody first (mkMeta (Some p) (Some total) tc))))), log')
  /\ (forall state, state <> "" ->
      getOrdersByState E (S fuel) c marketId state log
      = (Ret (Cb None (Some (mkEnvelope true None
                 (OrdersBody (List.filter (fun o => String.eqb (order_state o) state) first)
                    (mkMeta (Some p) (Some total) tc))))), log')).
Proof.
  intros Hs Hbeyond Hfirst log'.
  assert (Hstart : forall state,
             waterfall (getOrdersRaw E c marketId 0)
               (fun orders => pollOrders E (S fuel) c orders marketId state) log
             = _getOrderPages E (S fuel) c (listing None first p total tc) marketId state log').
  { intros state. unfold waterfall, pollOrders, bind. rewrite getOrdersRaw_run by assumption.
    cbn [Z.eqb]. rewrite (Hfirst _ (signed_get E c (listing_path marketId) log)) by reflexivity.
    reflexivity. }
  assert (Hne : (p =? total) = false) by (apply Z.eqb_neq; lia).
  split.
  - unfold getOrders. rewrite Hstart, getOrderPages_done by lia. reflexivity.
  - intros state Hstate. unfold getOrdersByState. rewrite Hstart, getOrderPages_done by lia.
    rewrite Hne, andb_false_r. unfold keep, truthy_state, truthy_string.
    apply String.eqb_neq in Hstate. now rewrite Hstate.
Qed.

Lemma pager_beyond_last_page_witness :
  getOrdersByState empty_listing_env 1 trader "btc-clp" "traded" []
  = (Ret (Cb None (Some (mkEnvelope true None
             (OrdersBody (List.filter (fun o => String.eqb (order_state o) "traded")
                            [mkOrder 9 "pending"])
                (mkMeta (Some 1) (Some 0) (Some 1)))))),
     [] ++ [EvNow (now empty_listing_env []);
            EvRequest (signed_get empty_listing_env trader (listing_path "btc-clp") [])]).
Proof.
  apply (proj2 (pager_beyond_last_page empty_listing_env trader "btc-clp" [mkOrder 9 "pending"]
                  1 0 (Some 1) 0 [] ltac:(discriminate) ltac:(lia)
                  ltac:(intros log rq Hurl; reflexivity))).
  discriminate.
Defined.

(** ** The empty state filter *)

Lemma getOrderPages_empty_state (E : Env) (c : Client) (marketId : string) (fuel : nat) :
  forall (orders : envelope) (log : list event),
    _getOrderPages E fuel c orders marketId (Some "") log
    = _getOrderPages E fuel c orders marketId None log.
Proof.
  induction fuel as [| fuel IH]; intros orders log; [reflexivity |].
  cbn [_getOrderPages truthy_state truthy_string String.eqb negb].
  destruct (env_data orders) as [o | os m | j |]; try reflexivity.
  rewrite !andb_false_r. cbn [andb].
  destruct (success orders && num_lt (current_page m) (total_pages m)); [| reflexivity].
  unfold bind.
  destruct (getOrdersRaw E c marketId _ log) as [[r | msg | why |] log1]; try reflexivity.
  destruct (cb_error r); [reflexivity |].
  destruct (cb_result r) as [response |]; [| reflexivity].
  destruct (env_data response); try reflexivity.
  apply IH.
Qed.

(** X15.  The empty string is no filter: [getOrdersByState] called with the state
    [''] behaves in every respect as [getOrders], since the pager tests the
    state for truthiness before it filters. *)
Theorem getOrdersByState_empty_state (E : Env) (c : Client) (marketId : string)
    (fuel : nat) (log : list event) :
  getOrdersByState E fuel c marketId "" log = getOrders E fuel c marketId log.
Proof.
  unfold getOrdersByState, getOrders, waterfall, pollOrders, bind.
  destruct (getOrdersRaw E c marketId 0 log) as [[r | msg | why |] log1]; try reflexivity.
  destruct (cb_error r); [reflexivity |].
  destruct (cb_result r); [| reflexivity].
  apply getOrderPages_empty_state.
Qed.

(** ** Edge behaviour of the header builder *)

(** X17.  For a method the signer does not know, [_getAuthHeaders] still returns a
    header set, with the key and the nonce and with a signature that is
    undefined, after a report on the console; for POST and PUT without data it
    throws once the clock is read. *)
Theorem getAuthHeaders_edges (E : Env) (c : Client) (method path : string)
    (data : option json) (log : list event) :
  (method <> "GET" -> method <> "POST" -> method <> "PUT" ->
     _getAuthHeaders E c method path data log
     = (Ret (headers c ∪ authHeaders (key c) (now E log) None),
        log ++ [EvNow (now E log);
                EvConsoleError ("Authentication for " +:+ method +:+ " is not implemented")])
     /\ (headers c !! "X-SBTC-SIGNATURE" = None ->
         (headers c ∪ authHeaders (key c) (now E log) None) !! "X-SBTC-SIGNATURE"
         = Some HUndefined))
  /\ (method = "POST" \/ method = "PUT" ->
      _getAuthHeaders E c method path None log
      = (Throw "TypeError: new Buffer(undefined)", log ++ [EvNow (now E log)])).
Proof.
  split.
  - intros Hget Hpost Hput. split.
    + unfold _getAuthHeaders, bind, getTime.
      rewrite getHmac_unsupported by assumption. unfold ret.
      now rewrite <- app_assoc.
    + intros Hnone. rewrite lookup_union_r by exact Hnone.
      now destruct (authHeaders_lookup (key c) (now E log) None) as (_ & _ & ->).
  - intros [-> | ->]; reflexivity.
Qed.

Lemma getAuthHeaders_edges_witness :
  _getAuthHeaders silent_env trader "PUT" "/orders/42" None []
  = (Throw "TypeError: new Buffer(undefined)", [] ++ [EvNow (now silent_env [])]).
Proof.
  apply (proj2 (getAuthHeaders_edges silent_env trader "PUT" "/orders/42" None [])).
  now right.
Defined.

(** ** Edge behaviour of pollOrders *)

(** X18.  [pollOrders] handed a failure envelope that carries a listing calls back
    with that envelope untouched in the result position: no request, and no
    filtering even when a state is given.  Handed an envelope that carries no
    listing (an error envelope, a single order), it throws on reading the
    meta, whatever the success flag. *)
Theorem pollOrders_edges (E : Env) (c : Client) (orders : envelope) (marketId : string)
    (state : option string) (fuel : nat) (log : list event) :
  (forall os m, success orders = false -> env_data orders = OrdersBody os m ->
     pollOrders E (S fuel) c orders marketId state log = (Ret (Cb None (Some orders)), log))
  /\ ((forall os m, env_data orders <> OrdersBody os m) ->
      pollOrders E (S fuel) c orders marketId state log
      = (Throw "TypeError: orders.meta is undefined", log)).
Proof.
  unfold pollOrders. split.
  - intros os m Hfailed Hdata. destruct orders as [s et d]. cbn in Hfailed, Hdata. subst s d.
    reflexivity.
  - intros Hnone. cbn [_getOrderPages].
    destruct (env_data orders) as [o | os m | j |]; try reflexivity.
    now destruct (Hnone os m).
Qed.

Lemma pollOrders_edges_witness :
  pollOrders silent_env 1 trader failed_order "btc-clp" None []
  = (Throw "TypeError: orders.meta is undefined", []).
Proof.
  apply (proj2 (pollOrders_edges silent_env trader failed_order "btc-clp" None 0 [])).
  intros os m. discriminate.
Defined.

(** ** The constructor *)

(** X19.  The constructor treats an empty string like an absent option: an empty
    endpoint falls back to the default endpoint of the revision, so the endpoint
    of a constructed client is never empty; the client is without secret exactly
    when the secret option is absent or empty; and without a headers option the
    base headers are Accept and Content-Type, both application/json. *)
Theorem constructor_defaults (o : options) :
  api (Index.newClient o) <> "" /\ api (Part002.newClient o) <> ""
  /\ (opt_api o = None \/ opt_api o = Some "" ->
      api (Index.newClient o) = "https://surbtc.com/api/v1"
      /\ api (Part002.newClient o) = "https://www.surbtc.com/api/v2")
  /\ (secret (Part002.newClient o) = "" <-> opt_secret o = None \/ opt_secret o = Some "")
  /\ (opt_headers o = None ->
      headers (Part002.newClient o) !! "Accept" = Some (HStr "application/json")
      /\ headers (Part002.newClient o) !! "Content-Type" = Some (HStr "application/json")
      /\ dom (headers (Part002.newClient o)) = ({["Accept"; "Content-Type"]} : gset string)).
Proof.
  assert (Hor : forall x d, d <> "" -> or_default x d <> "").
  { intros [s |] d Hd; cbn; [| exact Hd].
    unfold truthy_string. destruct (String.eqb s "") eqn:Hs; cbn; [exact Hd |].
    now apply String.eqb_neq. }
  repeat match goal with |- _ /\ _ => split end.
  - apply Hor. discriminate.
  - apply Hor. discriminate.
  - intros [H | H]; cbn; rewrite H; split; reflexivity.
  - split.
    + cbn. destruct (opt_secret o) as [s |]; cbn; [| now left].
      unfold truthy_string. destruct (String.eqb s "") eqn:Hs; cbn.
      * apply String.eqb_eq in Hs. subst s. now right.
      * intros ->. discriminate.
    + intros [H | H]; cbn; rewrite H; reflexivity.
  - intros H. cbn. rewrite H. split; [reflexivity | split; [reflexivity |]].
    unfold default_headers. rewrite !dom_insert_L, dom_empty_L. set_solver.
Qed.

Lemma constructor_defaults_witness :
  api (Index.newClient (mkOptions (Some "") None None None)) = "https://surbtc.com/api/v1"
  /\ api (Part002.newClient (mkOptions (Some "") None None None)) = "https://www.surbtc.com/api/v2".
Proof.
  destruct (constructor_defaults (mkOptions (Some "") None None None)) as (_ & _ & Hdefault & _).
  apply Hdefault. now right.
Defined.
